(** * AI Legal Document Simplifier: the analysis layer of [ai_utils.py]

    A shallow embedding of [AIProcessor] (GenAI/ai_utils.py) and of the
    language table of GenAI/config.py, with the properties of the
    specification stated over it.

    Python values are modelled as follows.
    - [str] is a sequence of Unicode code points, [list N]; slicing and
      [len] count code points, as in Python.
    - The values the program handles (what [json.loads] produces, and the
      dictionaries the operations return) form the type [pyval].
    - A call that may raise returns [res A]: [Ok a] or [Raise e], where
      [e] is an instance of a subclass of [Exception] with its [str(e)].
      [try ... except C] is [try_except], which tests the class.
    - [self.model.generate_content(prompt)] followed by [response.text] is
      the one external capability: a field of [AIProcessor] mapping the
      rendered prompt to a reply or to a raised exception.

    Covered: [summarize_document], [translate_text], [answer_question],
    [detect_risks_advanced], [get_safety_recommendation],
    [_parse_json_response], [get_supported_languages] and
    [validate_language]; [DocumentParser] (GenAI/document_parser.py) and
    [allowed_file] (GenAI/app_flask.py).  The decoder behind [json.loads]
    is modelled with its three failures: [JSONDecodeError], the
    [ValueError] of the integer digit limit and the [RecursionError] of
    the nesting limit.  Signals that do not derive from [Exception] (an
    interrupt, an exit request) are not modelled. *)

From Stdlib Require Import String Ascii DecimalString.
From Stdlib Require Import NArith ZArith Bool Arith Lia List.
Import ListNotations.

(** ** Strings *)

Definition pystr := list N.

(** An ASCII literal of the source as a code point sequence. *)
Definition py (s : string) : pystr :=
  map N_of_ascii (list_ascii_of_string s).

(** The double quote character and a literal enclosed in double quotes. *)
Definition dquote : N := 34%N.

Definition dq (s : string) : pystr := dquote :: py s ++ [dquote].

Fixpoint str_eqb (a b : pystr) : bool :=
  match a, b with
  | [], [] => true
  | x :: a', y :: b' => N.eqb x y && str_eqb a' b'
  | _, _ => false
  end.

(** [s.startswith(p)], returning the remainder after the prefix. *)
Fixpoint strip_prefix (p s : pystr) : option pystr :=
  match p, s with
  | [], _ => Some s
  | x :: p', y :: s' => if N.eqb x y then strip_prefix p' s' else None
  | _ :: _, [] => None
  end.

(** ** Values *)

(** A [float] is carried as the number literal it was read from (or as
    [NaN], [Infinity], [-Infinity]); the program never inspects one. *)
#[local] Unset Elimination Schemes.

Inductive pyval : Type :=
| PNone
| PBool (b : bool)
| PInt (z : Z)
| PFloat (literal : pystr)
| PStr (s : pystr)
| PList (items : list pyval)
| PDict (entries : list (pystr * pyval)).

#[local] Set Elimination Schemes.

(** A [dict] keeps its keys in insertion order; assigning to an existing
    key replaces the value in place. *)
Definition dict := list (pystr * pyval).

Fixpoint dict_lookup (d : dict) (key : pystr) : option pyval :=
  match d with
  | [] => None
  | (k, v) :: d' => if str_eqb k key then Some v else dict_lookup d' key
  end.

Fixpoint dict_set (d : dict) (key : pystr) (v : pyval) : dict :=
  match d with
  | [] => [(key, v)]
  | (k, w) :: d' =>
      if str_eqb k key then (k, v) :: d' else (k, w) :: dict_set d' key v
  end.

Definition dict_keys (d : dict) : list pystr := map fst d.

(** ** Exceptions *)

Inductive exn_class : Type :=
| AttributeError
| TypeError
| JSONDecodeError
| OtherError (name : pystr).

Record exn : Type := Exn { exn_cls : exn_class; exn_msg : pystr }.

Inductive res (A : Type) : Type :=
| Ok (a : A)
| Raise (e : exn).

Arguments Ok {A} a.
Arguments Raise {A} e.

Definition bind {A B : Type} (m : res A) (k : A -> res B) : res B :=
  match m with
  | Ok a => k a
  | Raise e => Raise e
  end.

Declare Scope py_scope.
Delimit Scope py_scope with py.
Notation "x <- m ;; k" := (bind m (fun x => k))
  (at level 61, m at next level, right associativity) : py_scope.
Open Scope py_scope.

(** [try: body except C as e: handler(e)]; an exception that is not an
    instance of [C] propagates. *)
Definition try_except {A : Type} (body : res A) (isinstance : exn -> bool)
    (handler : exn -> res A) : res A :=
  match body with
  | Ok a => Ok a
  | Raise e => if isinstance e then handler e else Raise e
  end.

(** Every modelled exception derives from [Exception]. *)
Definition is_Exception (e : exn) : bool := true.

Definition is_JSONDecodeError (e : exn) : bool :=
  match exn_cls e with
  | JSONDecodeError => true
  | _ => false
  end.

(** ** Built-in operations on values *)

Definition type_name (v : pyval) : pystr :=
  match v with
  | PNone => py "NoneType"
  | PBool _ => py "bool"
  | PInt _ => py "int"
  | PFloat _ => py "float"
  | PStr _ => py "str"
  | PList _ => py "list"
  | PDict _ => py "dict"
  end.

(** [d.get(key, default)] on a [dict]. *)
Definition dict_get (d : dict) (key : pystr) (default : pyval) : pyval :=
  match dict_lookup d key with
  | Some v => v
  | None => default
  end.

(** [o.get(key, default)] on any value: only a [dict] has the attribute. *)
Definition py_get (o : pyval) (key : pystr) (default : pyval) : res pyval :=
  match o with
  | PDict d => Ok (dict_get d key default)
  | _ =>
      Raise (Exn AttributeError
               (py "'" ++ type_name o ++ py "' object has no attribute 'get'"))
  end.

(** [len(o)]. *)
Definition py_len (o : pyval) : res nat :=
  match o with
  | PStr s => Ok (length s)
  | PList l => Ok (length l)
  | PDict d => Ok (length d)
  | _ =>
      Raise (Exn TypeError
               (py "object of type '" ++ type_name o ++ py "' has no len()"))
  end.

(** The items [for r in o] visits: the elements of a list, the
    one-character strings of a [str], the keys of a [dict]. *)
Definition py_iter (o : pyval) : res (list pyval) :=
  match o with
  | PStr s => Ok (map (fun c => PStr [c]) s)
  | PList l => Ok l
  | PDict d => Ok (map (fun kv => PStr (fst kv)) d)
  | _ =>
      Raise (Exn TypeError
               (py "'" ++ type_name o ++ py "' object is not iterable"))
  end.

(** [v == 'literal']: true only for a [str] with the same code points. *)
Definition py_eq_str (v : pyval) (s : pystr) : bool :=
  match v with
  | PStr t => str_eqb t s
  | _ => false
  end.

(** [str.isspace] on one code point, as used by [str.strip()]. *)
Definition is_space (c : N) : bool :=
  ((9 <=? c) && (c <=? 13) || (28 <=? c) && (c <=? 32)
   || (c =? 133) || (c =? 160) || (c =? 5760)
   || (8192 <=? c) && (c <=? 8202)
   || (c =? 8232) || (c =? 8233) || (c =? 8239) || (c =? 8287)
   || (c =? 12288))%N.

Fixpoint lstrip (s : pystr) : pystr :=
  match s with
  | c :: t => if is_space c then lstrip t else s
  | [] => []
  end.

(** [s.strip()] *)
Definition strip (s : pystr) : pystr := rev (lstrip (rev (lstrip s))).

(** [s[:n]] *)
Definition slice_to (n : nat) (s : pystr) : pystr := firstn n s.

(** ** The decoder behind [json.loads]

    [json.loads] belongs to the Python standard library; this is its
    default decoder (strict mode): [scanstring], the number pattern
    (an optional minus sign, an integer part without leading zeros, an
    optional fraction, an optional exponent), the object and array
    loops and the constants [null], [true], [false], [NaN], [Infinity],
    [-Infinity].  A text that is not JSON fails with a
    [JSONDecodeError]; the position that CPython appends to its message
    is left out.  Two failures are of another class, which the handler
    of [_parse_json_response] does not catch: the conversion of an
    integer literal with more digits than the interpreter allows raises
    a [ValueError], and a container nested deeper than the interpreter
    allows raises a [RecursionError]. *)

Definition decode_error (msg : string) : exn := Exn JSONDecodeError (py msg).

(** CPython's defaults for the two limits: [sys.get_int_max_str_digits()]
    and [sys.getrecursionlimit()].  The second is the depth the decoder
    may reach when it is entered with no call in progress; a caller that
    is itself deep in calls leaves it less. *)
Definition int_max_str_digits : nat := 4300.

Definition recursion_limit : nat := 1000.

(** [str(n)] for a natural number. *)
Definition decimal_of_nat (n : nat) : pystr :=
  py (NilZero.string_of_uint (Nat.to_uint n)).

(** The [ValueError] of [int()] on a literal of [digits] digits. *)
Definition int_conversion_error (digits : nat) : exn :=
  Exn (OtherError (py "ValueError"))
    (py "Exceeds the limit (" ++ decimal_of_nat int_max_str_digits
     ++ py " digits) for integer string conversion: value has "
     ++ decimal_of_nat digits
     ++ py " digits; use sys.set_int_max_str_digits() to increase the limit").

(** The [RecursionError] raised on entering a container ([object] or
    [array]) beyond the allowed depth. *)
Definition recursion_error (container : string) : exn :=
  Exn (OtherError (py "RecursionError"))
    (py "maximum recursion depth exceeded while decoding a JSON "
     ++ py container ++ py " from a unicode string").

Definition is_ws (c : N) : bool :=
  ((c =? 32) || (c =? 9) || (c =? 10) || (c =? 13))%N.

Fixpoint skip_ws (s : pystr) : pystr :=
  match s with
  | c :: t => if is_ws c then skip_ws t else s
  | [] => []
  end.

Definition is_digit (c : N) : bool := ((48 <=? c) && (c <=? 57))%N.

Definition hex_digit (c : N) : option N :=
  if is_digit c then Some (c - 48)%N
  else if ((97 <=? c) && (c <=? 102))%N then Some (c - 87)%N
  else if ((65 <=? c) && (c <=? 70))%N then Some (c - 55)%N
  else None.

Definition hex4 (a b c d : N) : option N :=
  match hex_digit a, hex_digit b, hex_digit c, hex_digit d with
  | Some x, Some y, Some z, Some w => Some (((x * 16 + y) * 16 + z) * 16 + w)%N
  | _, _, _, _ => None
  end.

Definition is_high_surrogate (u : N) : bool :=
  ((55296 <=? u) && (u <=? 56319))%N.

Definition is_low_surrogate (u : N) : bool :=
  ((56320 <=? u) && (u <=? 57343))%N.

Definition join_surrogates (hi lo : N) : N :=
  (65536 + ((hi - 55296) * 1024 + (lo - 56320)))%N.

(** The character a one-letter escape stands for. *)
Definition unescape (e : N) : option N :=
  if (e =? 34)%N then Some 34%N
  else if (e =? 92)%N then Some 92%N
  else if (e =? 47)%N then Some 47%N
  else if (e =? 98)%N then Some 8%N
  else if (e =? 102)%N then Some 12%N
  else if (e =? 110)%N then Some 10%N
  else if (e =? 114)%N then Some 13%N
  else if (e =? 116)%N then Some 9%N
  else None.

(** [scanstring]: the text after an opening double quote, up to the
    closing one; [acc] holds the characters read so far, latest first. *)
Fixpoint scanstring (s acc : pystr) {struct s} : res (pystr * pystr) :=
  match s with
  | [] => Raise (decode_error "Unterminated string starting at")
  | c :: t =>
      if (c =? 34)%N then Ok (rev acc, t)
      else if (c =? 92)%N then
        match t with
        | [] => Raise (decode_error "Unterminated string starting at")
        | e :: t1 =>
            if (e =? 117)%N then
              match t1 with
              | h1 :: h2 :: h3 :: h4 :: t2 =>
                  match hex4 h1 h2 h3 h4 with
                  | None => Raise (decode_error "Invalid \uXXXX escape")
                  | Some u =>
                      match t2 with
                      | b :: v :: l1 :: l2 :: l3 :: l4 :: t3 =>
                          if is_high_surrogate u && (b =? 92)%N && (v =? 117)%N
                          then
                            match hex4 l1 l2 l3 l4 with
                            | None =>
                                Raise (decode_error "Invalid \uXXXX escape")
                            | Some u2 =>
                                if is_low_surrogate u2
                                then scanstring t3 (join_surrogates u u2 :: acc)
                                else scanstring t2 (u :: acc)
                            end
                          else scanstring t2 (u :: acc)
                      | _ => scanstring t2 (u :: acc)
                      end
                  end
              | _ => Raise (decode_error "Invalid \uXXXX escape")
              end
            else
              match unescape e with
              | Some ch => scanstring t1 (ch :: acc)
              | None => Raise (decode_error "Invalid \escape")
              end
        end
      else if (c <=? 31)%N then
        Raise (decode_error "Invalid control character at")
      else scanstring t (c :: acc)
  end.

(** Numbers. *)

Fixpoint span_digits (s : pystr) : pystr * pystr :=
  match s with
  | c :: t =>
      if is_digit c then let (ds, r) := span_digits t in (c :: ds, r)
      else ([], s)
  | [] => ([], [])
  end.

Definition decimal (ds : pystr) : Z :=
  fold_left (fun acc c => (acc * 10 + Z.of_N (c - 48))%Z) ds 0%Z.

(** The integer part: [0], or a digit from 1 to 9 followed by digits. *)
Definition int_part (s : pystr) : option (pystr * pystr) :=
  match s with
  | c :: t =>
      if (c =? 48)%N then Some ([c], t)
      else if is_digit c then let (ds, r) := span_digits t in Some (c :: ds, r)
      else None
  | [] => None
  end.

(** The optional fraction: a dot followed by one or more digits. *)
Definition frac_part (s : pystr) : pystr * pystr :=
  match s with
  | p :: d :: t =>
      if (p =? 46)%N && is_digit d
      then let (ds, r) := span_digits t in (p :: d :: ds, r)
      else ([], s)
  | _ => ([], s)
  end.

(** The optional exponent: [e] or [E], an optional sign, one or more
    digits. *)
Definition exp_part (s : pystr) : pystr * pystr :=
  match s with
  | e :: t =>
      if ((e =? 101) || (e =? 69))%N then
        let (sign, t1) :=
          match t with
          | c :: t' => if ((c =? 45) || (c =? 43))%N then ([c], t') else ([], t)
          | [] => ([], t)
          end in
        match span_digits t1 with
        | ([], _) => ([], s)
        | (ds, r) => (e :: sign ++ ds, r)
        end
      else ([], s)
  | [] => ([], s)
  end.

(** [int(literal)] for a literal of the digits [ds] with or without a
    minus sign: refused when a limit is set and the digits exceed it. *)
Definition int_of_digits (neg : bool) (ds : pystr) : res pyval :=
  if negb (int_max_str_digits =? 0) && (int_max_str_digits <? length ds)
  then Raise (int_conversion_error (length ds))
  else Ok (PInt (if neg then - decimal ds else decimal ds)%Z).

(** The number at the front of [s], if there is one: the outcome of its
    conversion and the text after it. *)
Definition match_number (s : pystr) : option (res pyval * pystr) :=
  let (neg, s1) :=
    match s with
    | c :: t => if (c =? 45)%N then (true, t) else (false, s)
    | [] => (false, s)
    end in
  match int_part s1 with
  | None => None
  | Some (ds, r1) =>
      let (fr, r2) := frac_part r1 in
      let (ex, r3) := exp_part r2 in
      match fr ++ ex with
      | [] => Some (int_of_digits neg ds, r3)
      | _ :: _ =>
          Some (Ok (PFloat ((if neg then [45%N] else []) ++ ds ++ fr ++ ex)),
                r3)
      end
  end.

(** The outcome of a scanning function: a value with the text left after
    it, a decoding error, or no recursion budget left. *)
Inductive scan : Type :=
| Done (v : pyval) (rest : pystr)
| Fail (e : exn)
| Starved.

(** The terms that need no recursion: constants and numbers. *)
Definition scan_atom (s : pystr) : scan :=
  match strip_prefix (py "null") s with
  | Some r => Done PNone r
  | None =>
  match strip_prefix (py "true") s with
  | Some r => Done (PBool true) r
  | None =>
  match strip_prefix (py "false") s with
  | Some r => Done (PBool false) r
  | None =>
  match strip_prefix (py "NaN") s with
  | Some r => Done (PFloat (py "NaN")) r
  | None =>
  match strip_prefix (py "Infinity") s with
  | Some r => Done (PFloat (py "Infinity")) r
  | None =>
  match strip_prefix (py "-Infinity") s with
  | Some r => Done (PFloat (py "-Infinity")) r
  | None =>
  match match_number s with
  | Some (Ok v, r) => Done v r
  | Some (Raise e, _) => Fail e
  | None => Fail (decode_error "Expecting value")
  end end end end end end end.

(** [scan_once] with the object loop and the array loop.  [depth] is the
    number of containers that may still be entered, one inside the
    other.  [fuel] bounds the recursion of the model; [scan_fuel_enough]
    below shows that twice the length of the text, plus one, always
    suffices. *)
Fixpoint scan_once (fuel depth : nat) (s : pystr) {struct fuel} : scan :=
  match fuel with
  | O => Starved
  | S f =>
      match s with
      | [] => Fail (decode_error "Expecting value")
      | c :: t =>
          if (c =? 34)%N then
            match scanstring t [] with
            | Ok (str, rest) => Done (PStr str) rest
            | Raise e => Fail e
            end
          else if (c =? 123)%N then
            match depth with
            | O => Fail (recursion_error "object")
            | S d =>
                match skip_ws t with
                | c1 :: t1 =>
                    if (c1 =? 125)%N then Done (PDict []) t1
                    else parse_object f d (c1 :: t1) []
                | [] => parse_object f d [] []
                end
            end
          else if (c =? 91)%N then
            match depth with
            | O => Fail (recursion_error "array")
            | S d =>
                match skip_ws t with
                | c1 :: t1 =>
                    if (c1 =? 93)%N then Done (PList []) t1
                    else parse_array f d (c1 :: t1) []
                | [] => parse_array f d [] []
                end
            end
          else scan_atom s
      end
  end

with parse_object (fuel depth : nat) (s : pystr) (pairs : dict)
    {struct fuel} : scan :=
  match fuel with
  | O => Starved
  | S f =>
      match s with
      | c :: t =>
          if (c =? 34)%N then
            match scanstring t [] with
            | Raise e => Fail e
            | Ok (key, r1) =>
                match skip_ws r1 with
                | c2 :: r2 =>
                    if (c2 =? 58)%N then
                      match scan_once f depth (skip_ws r2) with
                      | Done v r3 =>
                          let pairs' := dict_set pairs key v in
                          match skip_ws r3 with
                          | c4 :: r4 =>
                              if (c4 =? 125)%N then Done (PDict pairs') r4
                              else if (c4 =? 44)%N
                              then parse_object f depth (skip_ws r4) pairs'
                              else Fail (decode_error "Expecting ',' delimiter")
                          | [] => Fail (decode_error "Expecting ',' delimiter")
                          end
                      | Fail e => Fail e
                      | Starved => Starved
                      end
                    else Fail (decode_error "Expecting ':' delimiter")
                | [] => Fail (decode_error "Expecting ':' delimiter")
                end
            end
          else
            Fail (decode_error
                    "Expecting property name enclosed in double quotes")
      | [] =>
          Fail (decode_error
                  "Expecting property name enclosed in double quotes")
      end
  end

with parse_array (fuel depth : nat) (s : pystr) (values : list pyval)
    {struct fuel} : scan :=
  match fuel with
  | O => Starved
  | S f =>
      match scan_once f depth s with
      | Done v r1 =>
          let values' := values ++ [v] in
          match skip_ws r1 with
          | c2 :: r2 =>
              if (c2 =? 93)%N then Done (PList values') r2
              else if (c2 =? 44)%N
              then parse_array f depth (skip_ws r2) values'
              else Fail (decode_error "Expecting ',' delimiter")
          | [] => Fail (decode_error "Expecting ',' delimiter")
          end
      | Fail e => Fail e
      | Starved => Starved
      end
  end.

(** [JSONDecoder.decode]: leading white space, one term, trailing white
    space, then the end of the text. *)
Definition decode (fuel : nat) (s : pystr) : scan :=
  match scan_once fuel recursion_limit (skip_ws s) with
  | Done v rest =>
      match skip_ws rest with
      | [] => Done v []
      | _ :: _ => Fail (decode_error "Extra data")
      end
  | other => other
  end.

(** [json.loads(s)] for a [str].  The fuel given to [decode] is never
    used up ([json_loads_raises] below), so the last branch is never
    taken. *)
Definition json_loads (s : pystr) : res pyval :=
  match strip_prefix [65279%N] s with
  | Some _ =>
      Raise (decode_error "Unexpected UTF-8 BOM (decode using utf-8-sig)")
  | None =>
      match decode (S (2 * length s)) s with
      | Done v _ => Ok v
      | Fail e => Raise e
      | Starved => Raise (Exn (OtherError (py "RecursionError")) [])
      end
  end.

(** ** The response interpreter *)

(** The longest prefix of [s] that ends with a closing brace: what a
    greedy [.*] followed by a closing brace matches at the front of [s]
    under [re.DOTALL]. *)
Fixpoint greedy_to_close (s : pystr) : option pystr :=
  match s with
  | [] => None
  | c :: t =>
      match greedy_to_close t with
      | Some m => Some (c :: m)
      | None => if (c =? 125)%N then Some [c] else None
      end
  end.

(** [re.search(r'\{.*\}', s, re.DOTALL)] followed by [.group()]: the
    match at the leftmost position where the pattern matches. *)
Fixpoint re_search (s : pystr) : option pystr :=
  match s with
  | [] => None
  | c :: t =>
      if (c =? 123)%N then
        match greedy_to_close t with
        | Some m => Some (c :: m)
        | None => re_search t
        end
      else re_search t
  end.

Definition _parse_json_response (response_text : pystr) : res pyval :=
  try_except
    (match re_search response_text with
     | Some json_str => json_loads json_str
     | None => Ok (PDict [])
     end)
    is_JSONDecodeError
    (fun _ => Ok (PDict [])).

(** ** The prompts

    Each prompt is the f-string of its operation.  The three that embed
    the document text are written as the part before the text, the
    slice of the text, and the part after it. *)

Definition nl : pystr := [10%N].

(** The indentation every line of a template carries in the source. *)
Definition ind : pystr := py "            ".

Definition summarize_prompt_head (language : pystr) : pystr :=
  nl ++
  ind ++ py "You are a legal document expert specializing in Indian " ++
    py "legal documents. Please analyze this legal document and " ++
    py "provide:" ++ nl ++
  ind ++ nl ++
  ind ++ py "1. A brief summary (2-3 sentences) in " ++ language ++ nl ++
  ind ++ py "2. Key points in simple, plain language (5-7 bullet " ++
    py "points) in " ++ language ++ nl ++
  ind ++ py "3. Important dates, deadlines, or timeframes mentioned" ++ nl ++
  ind ++ py "4. Main parties involved" ++ nl ++
  ind ++ nl ++
  ind ++ py "If the language is Hindi or any Indian language, please " ++
    py "respond in that language using appropriate script " ++
    py "(Devanagari for Hindi, etc.)." ++ nl ++
  ind ++ py "Make the language simple and easy to understand for " ++
    py "common people." ++ nl ++
  ind ++ nl ++
  ind ++ py "Document text:" ++ nl ++
  ind.

Definition summarize_prompt_tail : pystr :=
  py "  # Limit text to avoid token limits" ++ nl ++
  ind ++ nl ++
  ind ++ py "Please format your response as JSON:" ++ nl ++
  ind ++ py "{" ++ nl ++
  ind ++ py "    " ++ dq "summary" ++ py ": " ++ dq "Brief summary here" ++
    py "," ++ nl ++
  ind ++ py "    " ++ dq "key_points" ++ py ": [" ++ dq "Point 1" ++
    py ", " ++ dq "Point 2" ++ py ", " ++ dq "Point 3" ++ py "]," ++ nl ++
  ind ++ py "    " ++ dq "important_dates" ++ py ": [" ++ dq "Date 1" ++
    py ", " ++ dq "Date 2" ++ py "]," ++ nl ++
  ind ++ py "    " ++ dq "parties" ++ py ": [" ++ dq "Party 1" ++ py ", " ++
    dq "Party 2" ++ py "]" ++ nl ++
  ind ++ py "}" ++ nl ++
  ind.

Definition summarize_prompt (text language : pystr) : pystr :=
  summarize_prompt_head language ++ slice_to 4000 text ++
  summarize_prompt_tail.

Definition answer_prompt_head (question language : pystr) : pystr :=
  nl ++
  ind ++ py "You are a legal assistant specializing in Indian legal " ++
    py "documents. Answer the following question about the legal " ++
    py "document." ++ nl ++
  ind ++ py "Base your answer on the document content provided." ++ nl ++
  ind ++ py "Respond in " ++ language ++ py " in a clear, simple manner." ++
    nl ++
  ind ++ py "If the language is Hindi or any Indian language, use the " ++
    py "appropriate script (Devanagari for Hindi, etc.)." ++ nl ++
  ind ++ py "Make your answer easy to understand for common people." ++ nl ++
  ind ++ nl ++
  ind ++ py "Question: " ++ question ++ nl ++
  ind ++ nl ++
  ind ++ py "Document context:" ++ nl ++
  ind.

Definition answer_prompt_tail : pystr :=
  py "  # Limit context to avoid token limits" ++ nl ++
  ind ++ nl ++
  ind ++ py "Please provide a direct, helpful answer based on the " ++
    py "document content." ++ nl ++
  ind ++ py "If the information is not available in the document, say " ++
    py "so clearly." ++ nl ++
  ind.

Definition answer_prompt (question document_text language : pystr) : pystr :=
  answer_prompt_head question language ++ slice_to 3000 document_text ++
  answer_prompt_tail.

Definition risk_prompt_head (language : pystr) : pystr :=
  nl ++
  ind ++ py "You are an expert legal risk analyst specializing in " ++
    py "Indian legal documents. Analyze this legal document " ++
    py "thoroughly and identify potential risks using your " ++
    py "understanding of legal language and context." ++ nl ++
  ind ++ nl ++
  ind ++ py "IMPORTANT: Do not rely on simple keyword matching. " ++
    py "Instead, analyze the actual meaning and context of " ++
    py "sentences to determine if they pose real risks." ++ nl ++
  ind ++ nl ++
  ind ++ py "Look for and analyze:" ++ nl ++
  ind ++ py "1. Penalty and fee structures - Are they reasonable or " ++
    py "excessive?" ++ nl ++
  ind ++ py "2. Data collection and sharing policies - What data is " ++
    py "collected and how is it used?" ++ nl ++
  ind ++ py "3. Auto-renewal and subscription terms - Are users " ++
    py "properly informed?" ++ nl ++
  ind ++ py "4. Termination and cancellation clauses - Are they fair " ++
    py "to users?" ++ nl ++
  ind ++ py "5. Liability limitations and disclaimers - Are they " ++
    py "overly broad?" ++ nl ++
  ind ++ py "6. Unfair contract terms - Any terms that heavily favor " ++
    py "one party?" ++ nl ++
  ind ++ py "7. Hidden charges or fees - Any costs not clearly " ++
    py "disclosed?" ++ nl ++
  ind ++ py "8. Lock-in periods - Are users trapped in contracts?" ++ nl ++
  ind ++ nl ++
  ind ++ py "For each genuine risk found (not just keyword matches), " ++
    py "provide:" ++ nl ++
  ind ++ py "- Risk type (be specific)" ++ nl ++
  ind ++ py "- Clear description in " ++ language ++
    py " (use appropriate script for Indian languages)" ++ nl ++
  ind ++ py "- Severity level (Low/Medium/High) based on actual impact" ++
    nl ++
  ind ++ py "- Relevant text excerpt that shows the risk" ++ nl ++
  ind ++ nl ++
  ind ++ py "Only report risks that are actually problematic, not just " ++
    py "because certain words appear." ++ nl ++
  ind ++ nl ++
  ind ++ py "Document text:" ++ nl ++
  ind.

Definition risk_prompt_tail (language : pystr) : pystr :=
  nl ++
  ind ++ nl ++
  ind ++ py "Format as JSON:" ++ nl ++
  ind ++ py "{" ++ nl ++
  ind ++ py "    " ++ dq "risks" ++ py ": [" ++ nl ++
  ind ++ py "        {" ++ nl ++
  ind ++ py "            " ++ dq "type" ++ py ": " ++
    dq "Specific Risk Type" ++ py "," ++ nl ++
  ind ++ py "            " ++ dq "description" ++ py ": " ++ [dquote] ++
    py "Clear description in " ++ language ++ [dquote] ++ py "," ++ nl ++
  ind ++ py "            " ++ dq "severity" ++ py ": " ++
    dq "Low/Medium/High" ++ py "," ++ nl ++
  ind ++ py "            " ++ dq "excerpt" ++ py ": " ++
    dq "Exact text showing the risk" ++ nl ++
  ind ++ py "        }" ++ nl ++
  ind ++ py "    ]" ++ nl ++
  ind ++ py "}" ++ nl ++
  ind.

Definition risk_prompt (text language : pystr) : pystr :=
  risk_prompt_head language ++ slice_to 4000 text ++
  risk_prompt_tail language.

(** The safety prompt formats four entries of the risk report and the
    output of [json.dumps(..., indent=2)].  Both renderings are library
    code the program only calls; they are taken as given.  The f-string
    evaluates its expressions from left to right, so the five [get]
    calls and [json.dumps] run in the order of the template, and the
    first one that raises ends the rendering. *)
Class Builtins : Type := {
  format_value : pyval -> pystr;
  json_dumps : pyval -> res pystr
}.

Definition safety_prompt `{Builtins} (risks : pyval) (language : pystr)
    : res pystr :=
  total <- py_get risks (py "total_risks") (PInt 0) ;;
  high <- py_get risks (py "high_risk_count") (PInt 0) ;;
  medium <- py_get risks (py "medium_risk_count") (PInt 0) ;;
  low <- py_get risks (py "low_risk_count") (PInt 0) ;;
  detected <- py_get risks (py "risks") (PList []) ;;
  dumped <- json_dumps detected ;;
  Ok (nl ++
     ind ++ py "You are a legal advisor providing safety recommendations " ++
       py "for document signing. Based on the document analysis and " ++
       py "detected risks, provide a clear recommendation." ++ nl ++
     ind ++ nl ++
     ind ++ py "Document risks summary:" ++ nl ++
     ind ++ py "- Total risks: " ++ format_value total ++ nl ++
     ind ++ py "- High risk: " ++ format_value high ++ nl ++
     ind ++ py "- Medium risk: " ++ format_value medium ++ nl ++
     ind ++ py "- Low risk: " ++ format_value low ++ nl ++
     ind ++ nl ++
     ind ++ py "Detected risks: " ++ dumped ++ nl ++
     ind ++ nl ++
     ind ++ py "Provide a safety recommendation in " ++ language ++
       py " with:" ++ nl ++
     ind ++ py "1. Overall safety level (SAFE/WARNING/DANGER)" ++ nl ++
     ind ++ py "2. Clear recommendation (should they sign or not?)" ++ nl ++
     ind ++ py "3. Specific reasons based on the risks found" ++ nl ++
     ind ++ py "4. Any specific clauses to negotiate or modify" ++ nl ++
     ind ++ nl ++
     ind ++ py "Consider:" ++ nl ++
     ind ++ py "- High risk count indicates danger" ++ nl ++
     ind ++ py "- Medium risk count indicates caution needed" ++ nl ++
     ind ++ py "- Low risk count is generally acceptable" ++ nl ++
     ind ++ py "- Context and severity of individual risks" ++ nl ++
     ind ++ nl ++
     ind ++ py "Format as JSON:" ++ nl ++
     ind ++ py "{" ++ nl ++
     ind ++ py "    " ++ dq "safety_level" ++ py ": " ++
       dq "SAFE/WARNING/DANGER" ++ py "," ++ nl ++
     ind ++ py "    " ++ dq "recommendation" ++ py ": " ++ [dquote] ++
       py "Clear recommendation in " ++ language ++ [dquote] ++ py "," ++
       nl ++
     ind ++ py "    " ++ dq "reasons" ++ py ": [" ++ dq "Reason 1" ++
       py ", " ++ dq "Reason 2" ++ py ", " ++ dq "Reason 3" ++ py "]," ++
       nl ++
     ind ++ py "    " ++ dq "suggestions" ++ py ": [" ++ dq "Suggestion 1" ++
       py ", " ++ dq "Suggestion 2" ++ py "]" ++ nl ++
     ind ++ py "}" ++ nl ++
     ind).

(** ** The operations of [AIProcessor] *)

(** [self.model.generate_content(prompt)] and the [.text] of the
    response: the reply, or the exception either of them raised. *)
Record AIProcessor : Type := {
  generate_content : pystr -> res pystr
}.

(** *** [summarize_document] *)

Definition summarize_document_try (self : AIProcessor)
    (text language : pystr) : res pyval :=
  let prompt := summarize_prompt text language in
  response_text <- generate_content self prompt ;;
  result <- _parse_json_response response_text ;;
  summary <- py_get result (py "summary")
               (PStr (py "Summary not available")) ;;
  key_points <- py_get result (py "key_points") (PList []) ;;
  important_dates <- py_get result (py "important_dates") (PList []) ;;
  parties <- py_get result (py "parties") (PList []) ;;
  Ok (PDict [(py "summary", summary);
             (py "key_points", key_points);
             (py "important_dates", important_dates);
             (py "parties", parties);
             (py "language", PStr language)]).

Definition summarize_document_except (language : pystr) (e : exn)
    : res pyval :=
  Ok (PDict [(py "summary",
               PStr (py "Error generating summary: " ++ exn_msg e));
             (py "key_points", PList []);
             (py "important_dates", PList []);
             (py "parties", PList []);
             (py "language", PStr language)]).

Definition summarize_document (self : AIProcessor) (text language : pystr)
    : res pyval :=
  try_except (summarize_document_try self text language)
    is_Exception (summarize_document_except language).

(** *** [answer_question] *)

Definition answer_question_try (self : AIProcessor)
    (question document_text language : pystr) : res pystr :=
  let prompt := answer_prompt question document_text language in
  response_text <- generate_content self prompt ;;
  Ok (strip response_text).

Definition answer_question_except (e : exn) : res pystr :=
  Ok (py "Error answering question: " ++ exn_msg e).

Definition answer_question (self : AIProcessor)
    (question document_text language : pystr) : res pystr :=
  try_except (answer_question_try self question document_text language)
    is_Exception answer_question_except.

(** *** [detect_risks_advanced] *)

(** [[r for r in items if r.get('severity') == label]] *)
Fixpoint select_severity (label : pystr) (items : list pyval)
    : res (list pyval) :=
  match items with
  | [] => Ok []
  | r :: rest =>
      severity <- py_get r (py "severity") PNone ;;
      selected <- select_severity label rest ;;
      Ok (if py_eq_str severity label then r :: selected else selected)
  end.

(** [len([r for r in risks if r.get('severity') == label])] *)
Definition count_severity (risks : pyval) (label : pystr) : res nat :=
  items <- py_iter risks ;;
  selected <- select_severity label items ;;
  Ok (length selected).

Definition py_int (n : nat) : pyval := PInt (Z.of_nat n).

Definition detect_risks_advanced_try (self : AIProcessor)
    (text language : pystr) : res pyval :=
  let prompt := risk_prompt text language in
  response_text <- generate_content self prompt ;;
  result <- _parse_json_response response_text ;;
  risks <- py_get result (py "risks") (PList []) ;;
  total <- py_len risks ;;
  high <- count_severity risks (py "High") ;;
  medium <- count_severity risks (py "Medium") ;;
  low <- count_severity risks (py "Low") ;;
  Ok (PDict [(py "total_risks", py_int total);
             (py "high_risk_count", py_int high);
             (py "medium_risk_count", py_int medium);
             (py "low_risk_count", py_int low);
             (py "risks", risks);
             (py "language", PStr language)]).

Definition detect_risks_advanced_except (language : pystr) (e : exn)
    : res pyval :=
  Ok (PDict [(py "total_risks", PInt 0);
             (py "high_risk_count", PInt 0);
             (py "medium_risk_count", PInt 0);
             (py "low_risk_count", PInt 0);
             (py "risks", PList []);
             (py "language", PStr language);
             (py "error", PStr (exn_msg e))]).

Definition detect_risks_advanced (self : AIProcessor)
    (text language : pystr) : res pyval :=
  try_except (detect_risks_advanced_try self text language)
    is_Exception (detect_risks_advanced_except language).

(** *** [get_safety_recommendation]

    [risks] is whatever the caller passes, [None] included; [text] is a
    parameter the body never reads. *)

Definition get_safety_recommendation_try `{Builtins} (self : AIProcessor)
    (text : pystr) (risks : pyval) (language : pystr) : res pyval :=
  prompt <- safety_prompt risks language ;;
  response_text <- generate_content self prompt ;;
  result <- _parse_json_response response_text ;;
  safety_level <- py_get result (py "safety_level") (PStr (py "WARNING")) ;;
  recommendation <- py_get result (py "recommendation")
                      (PStr (py "Please review the document carefully")) ;;
  reasons <- py_get result (py "reasons") (PList []) ;;
  suggestions <- py_get result (py "suggestions") (PList []) ;;
  Ok (PDict [(py "safety_level", safety_level);
             (py "recommendation", recommendation);
             (py "reasons", reasons);
             (py "suggestions", suggestions);
             (py "language", PStr language)]).

Definition get_safety_recommendation_except (language : pystr) (e : exn)
    : res pyval :=
  Ok (PDict [(py "safety_level", PStr (py "WARNING"));
             (py "recommendation",
               PStr (py "Unable to analyze safety: " ++ exn_msg e));
             (py "reasons", PList [PStr (py "Analysis error occurred")]);
             (py "suggestions",
               PList [PStr (py "Please review the document manually")]);
             (py "language", PStr language)]).

Definition get_safety_recommendation `{Builtins} (self : AIProcessor)
    (text : pystr) (risks : pyval) (language : pystr) : res pyval :=
  try_except (get_safety_recommendation_try self text risks language)
    is_Exception (get_safety_recommendation_except language).

(** ** The language registry *)

(** The table of config.py. *)
Definition SUPPORTED_LANGUAGES : dict :=
  [(py "English", PStr (py "en"));
   (py "Hindi", PStr (py "hi"));
   (py "Bengali", PStr (py "bn"));
   (py "Telugu", PStr (py "te"));
   (py "Marathi", PStr (py "mr"));
   (py "Tamil", PStr (py "ta"));
   (py "Gujarati", PStr (py "gu"));
   (py "Kannada", PStr (py "kn"));
   (py "Malayalam", PStr (py "ml"));
   (py "Punjabi", PStr (py "pa"));
   (py "Odia", PStr (py "or"));
   (py "Assamese", PStr (py "as"));
   (py "Urdu", PStr (py "ur"));
   (py "Sanskrit", PStr (py "sa"));
   (py "Nepali", PStr (py "ne"));
   (py "Bhojpuri", PStr (py "bh"))].

(** [key in d] *)
Definition dict_contains (d : dict) (key : pystr) : bool :=
  match dict_lookup d key with
  | Some _ => true
  | None => false
  end.

(** The module-level table is a mutable object that both registry
    functions read.  They are modelled over the current table and return
    it with their result, so that a write would show. *)
Record globals : Type := { languages_table : dict }.

Definition config_loaded : globals :=
  {| languages_table := SUPPORTED_LANGUAGES |}.

Definition get_supported_languages (self : AIProcessor) (g : globals)
    : pyval * globals :=
  (PDict (languages_table g), g).

Definition validate_language (self : AIProcessor) (language : pystr)
    (g : globals) : pyval * globals :=
  (PBool (dict_contains (languages_table g) language), g).

(** A caller's sequence of registry calls, run from a given table. *)
Inductive registry_call : Type :=
| CallValidate (language : pystr)
| CallList.

Definition registry_step (self : AIProcessor) (c : registry_call)
    (g : globals) : pyval * globals :=
  match c with
  | CallValidate language => validate_language self language g
  | CallList => get_supported_languages self g
  end.

Fixpoint registry_run (self : AIProcessor) (calls : list registry_call)
    (g : globals) : list pyval * globals :=
  match calls with
  | [] => ([], g)
  | c :: rest =>
      let (r, g1) := registry_step self c g in
      let (rs, g2) := registry_run self rest g1 in
      (r :: rs, g2)
  end.

(** ** Notions used by the statements *)

(** The three classes of failure of the decoder. *)
Definition is_decoder_failure (e : exn) : Prop :=
  exn_cls e = JSONDecodeError
  \/ exn_cls e = OtherError (py "ValueError")
  \/ exn_cls e = OtherError (py "RecursionError").

(** What a scanning step owes its caller: it consumed at least one
    character, or failed as the decoder fails; it did not run out of
    fuel. *)
Definition scan_ok (r : scan) (s : pystr) : Prop :=
  match r with
  | Done _ rest => length rest < length s
  | Fail e => is_decoder_failure e
  | Starved => False
  end.

(** The same for [scanstring]. *)
Definition scanstring_ok (r : res (pystr * pystr)) (s : pystr) : Prop :=
  match r with
  | Ok (_, rest) => length rest < length s
  | Raise e => exn_cls e = JSONDecodeError
  end.

(** [r.get('severity') == label] for an item that is a [dict]; an item
    that is not makes the comprehension raise. *)
Definition has_severity (label : pystr) (r : pyval) : bool :=
  match r with
  | PDict d =>
      match dict_lookup d (py "severity") with
      | Some v => py_eq_str v label
      | None => false
      end
  | _ => false
  end.

(** The number of items carrying exactly the severity [label]. *)
Definition count_label (label : pystr) (items : list pyval) : nat :=
  length (filter (has_severity label) items).

(** The item carries one of the three severities the counts look for. *)
Definition known_severity (r : pyval) : bool :=
  has_severity (py "High") r || has_severity (py "Medium") r
  || has_severity (py "Low") r.

(** The values Python calls sequences among those modelled. *)
Definition is_sequence (v : pyval) : bool :=
  match v with
  | PList _ | PStr _ => true
  | _ => false
  end.

(** A processor whose model answers every prompt with [reply]. *)
Definition replying (reply : pystr) : AIProcessor :=
  {| generate_content := fun _ => Ok reply |}.

(** A processor whose model fails on every prompt with [e]. *)
Definition failing (e : exn) : AIProcessor :=
  {| generate_content := fun _ => Raise e |}.

(** A test double that captures the rendered prompt: its model fails
    with the prompt as the exception text. *)
Definition capturing : AIProcessor :=
  {| generate_content :=
       fun prompt => Raise (Exn (OtherError (py "Captured")) prompt) |}.

(** Renderings for running the safety operation on a report with no
    counts and no risks: every count prints as zero and the risk list as
    an empty list. *)
Definition empty_report_builtins : Builtins :=
  {| format_value := fun _ => py "0";
     json_dumps := fun _ => Ok (py "[]") |}.

(** A JSON object with one member whose value is given as JSON text. *)
Definition json_member (key : string) (value : pystr) : pystr :=
  py "{" ++ dq key ++ py ": " ++ value ++ py "}".

(** The reply of the specification's example. *)
Definition reply_summary_ok : pystr :=
  py "blah blah " ++ json_member "summary" (dq "ok") ++ py " trailing junk".

(** A well-formed block followed by commentary with a second bracketed
    region. *)
Definition reply_two_regions : pystr :=
  json_member "summary" (dq "ok") ++ py " note {x}".

(** A reply whose payload holds an integer of 4301 digits. *)
Definition reply_long_integer : pystr :=
  json_member "a" (repeat 49%N 4301).

(** A reply whose payload opens 2000 arrays, one inside the other. *)
Definition reply_deep_nesting : pystr :=
  json_member "a" (repeat 91%N 2000).

(** A risk list whose only item carries a severity outside the three
    labels. *)
Definition reply_critical_risk : pystr :=
  json_member "risks" (py "[" ++ json_member "severity" (dq "Critical")
                         ++ py "]").

(** A reply whose [key_points] is a number. *)
Definition reply_numeric_key_points : pystr :=
  json_member "key_points" (py "7").


(** The keys of the four result shapes. *)
Definition summary_keys : list pystr :=
  [py "summary"; py "key_points"; py "important_dates"; py "parties";
   py "language"].

Definition risk_report_keys : list pystr :=
  [py "total_risks"; py "high_risk_count"; py "medium_risk_count";
   py "low_risk_count"; py "risks"; py "language"].


(** ** [translate_text]

    The one operation that embeds the text whole. *)

Definition translate_prompt_head (target_language : pystr) : pystr :=
  nl ++
  ind ++ py "Translate the following text to " ++ target_language ++
    py ". " ++ nl ++
  ind ++ py "Maintain the original meaning and legal context." ++ nl ++
  ind ++ py "If translating to Hindi or any Indian language, use the " ++
    py "appropriate script (Devanagari for Hindi, etc.)." ++ nl ++
  ind ++ py "Make the translation simple and easy to understand for " ++
    py "common people." ++ nl ++
  ind ++ py "Return only the translated text without any additional " ++
    py "formatting." ++ nl ++
  ind ++ nl ++
  ind ++ py "Text to translate:" ++ nl ++
  ind.

Definition translate_prompt_tail : pystr :=
  nl ++
  ind.

Definition translate_prompt (text target_language : pystr) : pystr :=
  translate_prompt_head target_language ++ text ++ translate_prompt_tail.

Definition translate_text_try (self : AIProcessor)
    (text target_language : pystr) : res pystr :=
  let prompt := translate_prompt text target_language in
  response_text <- generate_content self prompt ;;
  Ok (strip response_text).

Definition translate_text_except (e : exn) : res pystr :=
  Ok (py "Translation error: " ++ exn_msg e).

Definition translate_text (self : AIProcessor)
    (text target_language : pystr) : res pystr :=
  try_except (translate_text_try self text target_language)
    is_Exception translate_text_except.

(** ** The document parser (GenAI/document_parser.py) *)

(** [str.lower()].  On a [str] of ASCII characters it maps the capital
    letters to the small ones; on any other [str] it follows the Unicode
    tables, which are taken as given. *)
Class CaseMapping : Type := {
  unicode_lower : pystr -> pystr
}.

Definition is_ascii (c : N) : bool := (c <? 128)%N.

Definition ascii_lower (c : N) : N :=
  if ((65 <=? c) && (c <=? 90))%N then (c + 32)%N else c.

Definition lower `{CaseMapping} (s : pystr) : pystr :=
  if forallb is_ascii s then map ascii_lower s else unicode_lower s.

(** [s.split(sep)] for a separator of one character: never empty. *)
Fixpoint split_on (sep : N) (s : pystr) : list pystr :=
  match s with
  | [] => [[]]
  | c :: t =>
      if (c =? sep)%N then [] :: split_on sep t
      else
        match split_on sep t with
        | p :: ps => (c :: p) :: ps
        | [] => [[c]]
        end
  end.

(** [parts[-1]] of a list that is not empty. *)
Definition last_part (parts : list pystr) : pystr := last parts [].

(** [s.rsplit(sep, 1)]: one part when [sep] does not occur, otherwise the
    text before the last [sep] and the text after it. *)
Fixpoint rsplit_once (sep : N) (s : pystr) : list pystr :=
  match s with
  | [] => [[]]
  | c :: t =>
      match rsplit_once sep t with
      | [tail] => if (c =? sep)%N then [[]; tail] else [c :: tail]
      | head :: rest => (c :: head) :: rest
      | [] => [[c]]
      end
  end.

(** [s.split()]: the maximal runs of characters that are not white
    space; [cur] holds the run being read, latest character first. *)
Fixpoint split_ws_from (s cur : pystr) : list pystr :=
  match s with
  | [] =>
      match cur with
      | [] => []
      | _ :: _ => [rev cur]
      end
  | c :: t =>
      if is_space c then
        match cur with
        | [] => split_ws_from t []
        | _ :: _ => rev cur :: split_ws_from t []
        end
      else split_ws_from t (c :: cur)
  end.

Definition split_ws (s : pystr) : list pystr := split_ws_from s [].

Definition bytes := list Byte.byte.

(** The two readers the parser calls: [fitz.open] with the text of each
    page, and [docx.Document] with the text of each paragraph.  Either
    gives the sequence of texts, or the first exception raised while
    they are obtained. *)
Class Readers : Type := {
  pdf_page_texts : bytes -> res (list pystr);
  docx_paragraph_texts : bytes -> res (list pystr)
}.

Record DocumentParser : Type := {
  supported_formats : list pystr
}.

(** [DocumentParser()] *)
Definition DocumentParser_init : DocumentParser :=
  {| supported_formats := [py ".pdf"; py ".docx"] |}.

(** An instance of the class [Exception] itself, as the two readers'
    handlers raise, and a [ValueError]. *)
Definition plain_exception (msg : pystr) : exn :=
  Exn (OtherError (py "Exception")) msg.

Definition value_error (msg : pystr) : exn :=
  Exn (OtherError (py "ValueError")) msg.

(** The loop over the pages: each page's text, then two newlines. *)
Definition pdf_text_content (pages : list pystr) : pystr :=
  fold_left (fun text_content page => (text_content ++ page) ++ [10%N; 10%N])
    pages [].

Definition _extract_from_pdf `{Readers} (self : DocumentParser)
    (file_content : bytes) : res pyval :=
  try_except
    (pages <- pdf_page_texts file_content ;;
     let page_count := length pages in
     let text_content := pdf_text_content pages in
     Ok (PDict [(py "text", PStr (strip text_content));
                (py "page_count", py_int page_count);
                (py "format", PStr (py "PDF"));
                (py "word_count", py_int (length (split_ws text_content)))]))
    is_Exception
    (fun e => Raise (plain_exception (py "Error parsing PDF: " ++ exn_msg e))).

(** The loop over the paragraphs: a paragraph whose stripped text is
    empty is skipped, any other adds its text and a newline and counts. *)
Definition docx_loop (paragraphs : list pystr) : pystr * nat :=
  fold_left
    (fun (state : pystr * nat) paragraph =>
       let (text_content, paragraph_count) := state in
       match strip paragraph with
       | [] => state
       | _ :: _ => (text_content ++ paragraph ++ [10%N], paragraph_count + 1)
       end)
    paragraphs ([], 0).

Definition _extract_from_docx `{Readers} (self : DocumentParser)
    (file_content : bytes) : res pyval :=
  try_except
    (paragraphs <- docx_paragraph_texts file_content ;;
     let (text_content, paragraph_count) := docx_loop paragraphs in
     Ok (PDict [(py "text", PStr (strip text_content));
                (py "paragraph_count", py_int paragraph_count);
                (py "format", PStr (py "DOCX"));
                (py "word_count", py_int (length (split_ws text_content)))]))
    is_Exception
    (fun e =>
       Raise (plain_exception (py "Error parsing DOCX: " ++ exn_msg e))).

(** [filename.lower().split('.')[-1]] *)
Definition file_extension_of `{CaseMapping} (filename : pystr) : pystr :=
  last_part (split_on 46%N (lower filename)).

Definition extract_text `{CaseMapping} `{Readers} (self : DocumentParser)
    (file_content : bytes) (filename : pystr) : res pyval :=
  let file_extension := file_extension_of filename in
  if str_eqb file_extension (py "pdf") then
    _extract_from_pdf self file_content
  else if str_eqb file_extension (py "docx") then
    _extract_from_docx self file_content
  else
    Raise (value_error (py "Unsupported file format: " ++ file_extension)).

Definition validate_file `{CaseMapping} (self : DocumentParser)
    (filename : pystr) (file_size : Z) : bool :=
  let file_extension := py "." ++ file_extension_of filename in
  if negb (existsb (str_eqb file_extension) (supported_formats self))
  then false
  else
    let max_size := (10 * 1024 * 1024)%Z in
    if (file_size >? max_size)%Z then false else true.

(** ** [allowed_file] (GenAI/app_flask.py) *)

Definition ALLOWED_EXTENSIONS : list pystr := [py "pdf"; py "docx"].

(** ['.' in filename and filename.rsplit('.', 1)[1].lower() in
    ALLOWED_EXTENSIONS]; the second operand is evaluated only when the
    name has a dot, and then the split has two parts. *)
Definition allowed_file `{CaseMapping} (filename : pystr) : bool :=
  if existsb (N.eqb 46%N) filename then
    match nth_error (rsplit_once 46%N filename) 1 with
    | Some tail => existsb (str_eqb (lower tail)) ALLOWED_EXTENSIONS
    | None => false
    end
  else false.

(** ** Notions used by the further properties *)

(** The case mapping that leaves every [str] with a non-ASCII character
    as it is; it serves to run the parser on ASCII names. *)
Definition ascii_only_case_mapping : CaseMapping :=
  {| unicode_lower := fun s => s |}.

(** Readers that find the given pages, or the given paragraphs, in every
    file. *)
Definition readers_of (pages paragraphs : list pystr) : Readers :=
  {| pdf_page_texts := fun _ => Ok pages;
     docx_paragraph_texts := fun _ => Ok paragraphs |}.

(** Readers that fail on every file with [e]. *)
Definition failing_readers (e : exn) : Readers :=
  {| pdf_page_texts := fun _ => Raise e;
     docx_paragraph_texts := fun _ => Raise e |}.

Definition is_dict (v : pyval) : bool :=
  match v with
  | PDict _ => true
  | _ => false
  end.

(** The text has no white space at either end. *)
Definition is_stripped (s : pystr) : Prop :=
  (forall c t, s = c :: t -> is_space c = false)
  /\ (forall t c, s = t ++ [c] -> is_space c = false).

(** A reply that lists one high and one low risk. *)
Definition reply_high_and_low : pystr :=
  json_member "risks"
    (py "[" ++ json_member "severity" (dq "High") ++ py ", "
     ++ json_member "severity" (dq "Low") ++ py "]").

(** A reply whose risk list holds an object and a bare string. *)
Definition reply_string_among_risks : pystr :=
  json_member "risks"
    (py "[" ++ json_member "severity" (dq "High") ++ py ", "
     ++ dq "late fee" ++ py "]").

(** A paragraph the DOCX loop skips: nothing is left of it once
    stripped. *)
Definition is_blank (s : pystr) : bool :=
  match strip s with
  | [] => true
  | _ :: _ => false
  end.

(** The text of all the given parts, each followed by [sep]. *)
Definition joined_with (sep : pystr) (parts : list pystr) : pystr :=
  concat (map (fun p => p ++ sep) parts).

(** Readers that find [first] in the empty file and [second] in every
    other file. *)
Definition two_document_readers (first second : list pystr) : Readers :=
  {| pdf_page_texts :=
       fun c => Ok (match c with [] => first | _ :: _ => second end);
     docx_paragraph_texts :=
       fun c => Ok (match c with [] => first | _ :: _ => second end) |}.

(** * Properties *)

(** ** Strings and dictionaries *)

Lemma str_eqb_eq (a b : pystr) : str_eqb a b = true <-> a = b.
Proof.
  revert b; induction a as [|x a IH]; intros [|y b]; simpl;
    try (split; [discriminate | discriminate]); try tauto.
  rewrite andb_true_iff, N.eqb_eq, IH.
  split; [intros [-> ->]; reflexivity | intros E; inversion E; auto].
Qed.

Lemma str_eqb_refl (a : pystr) : str_eqb a a = true.
Proof. apply str_eqb_eq; reflexivity. Qed.

Lemma dict_contains_In (d : dict) (key : pystr) :
  dict_contains d key = true <-> In key (dict_keys d).
Proof.
  unfold dict_contains, dict_keys.
  induction d as [|[k v] d IH]; simpl.
  - split; [discriminate | tauto].
  - destruct (str_eqb k key) eqn:E.
    + apply str_eqb_eq in E. split; auto.
    + rewrite IH. split; auto. intros [->|]; auto.
      rewrite str_eqb_refl in E; discriminate.
Qed.

Lemma strip_prefix_length (p s r : pystr) :
  strip_prefix p s = Some r -> length s = length p + length r.
Proof.
  revert s; induction p as [|x p IH]; intros [|y s]; simpl;
    try discriminate; try (intros E; inversion E; reflexivity).
  destruct (N.eqb x y); [|discriminate].
  intros E; apply IH in E; lia.
Qed.

(** ** The decoder *)

Lemma skip_ws_length (s : pystr) : length (skip_ws s) <= length s.
Proof.
  induction s as [|c t IH]; simpl; [lia|].
  destruct (is_ws c); simpl; lia.
Qed.

Lemma span_digits_length (s : pystr) :
  length (snd (span_digits s)) <= length s.
Proof.
  induction s as [|c t IH]; simpl; [lia|].
  destruct (is_digit c); simpl; [|lia].
  destruct (span_digits t); simpl in *; lia.
Qed.

Lemma int_part_length (s ds r : pystr) :
  int_part s = Some (ds, r) -> length r < length s.
Proof.
  destruct s as [|c t]; simpl; [discriminate|].
  destruct (c =? 48)%N.
  - intros E; inversion E; subst; lia.
  - destruct (is_digit c); [|discriminate].
    pose proof (span_digits_length t) as L.
    destruct (span_digits t); simpl in L.
    intros E; inversion E; subst; lia.
Qed.

Lemma frac_part_length (s : pystr) : length (snd (frac_part s)) <= length s.
Proof.
  destruct s as [|p [|d t]]; simpl; try lia.
  destruct ((p =? 46)%N && is_digit d); simpl; [|lia].
  pose proof (span_digits_length t) as L.
  destruct (span_digits t); simpl in *; lia.
Qed.

Lemma exp_part_length (s : pystr) : length (snd (exp_part s)) <= length s.
Proof.
  destruct s as [|e t]; simpl; [lia|].
  destruct ((e =? 101) || (e =? 69))%N; simpl; [|lia].
  destruct t as [|c t']; simpl.
  - lia.
  - destruct ((c =? 45) || (c =? 43))%N.
    + pose proof (span_digits_length t') as L.
      destruct (span_digits t') as [[|n l] r]; simpl in *; lia.
    + pose proof (span_digits_length (c :: t')) as L.
      destruct (span_digits (c :: t')) as [[|n l] r]; simpl in *; lia.
Qed.

Lemma match_number_length (s : pystr) (v : res pyval) (r : pystr) :
  match_number s = Some (v, r) -> length r < length s.
Proof.
  unfold match_number.
  set (p := match s with
            | c :: t => if (c =? 45)%N then (true, t) else (false, s)
            | [] => (false, s)
            end).
  assert (Hp : length (snd p) <= length s).
  { subst p. destruct s as [|c t]; simpl; [lia|].
    destruct (c =? 45)%N; simpl; lia. }
  destruct p as [neg s1]; simpl in Hp.
  destruct (int_part s1) as [[ds r1]|] eqn:Ei; [|discriminate].
  apply int_part_length in Ei.
  pose proof (frac_part_length r1) as Lf.
  destruct (frac_part r1) as [fr r2]; simpl in Lf.
  pose proof (exp_part_length r2) as Le.
  destruct (exp_part r2) as [ex r3]; simpl in Le.
  destruct (fr ++ ex); intros E; inversion E; subst; lia.
Qed.

(** The only failure of a number is the refused conversion of an
    integer. *)
Lemma match_number_raises (s : pystr) (e : exn) (r : pystr) :
  match_number s = Some (Raise e, r) ->
  exists digits,
    e = int_conversion_error digits /\ int_max_str_digits < digits.
Proof.
  unfold match_number.
  destruct (match s with
            | c :: t => if (c =? 45)%N then (true, t) else (false, s)
            | [] => (false, s)
            end) as [neg s1].
  destruct (int_part s1) as [[ds r1]|]; [|discriminate].
  destruct (frac_part r1) as [fr r2].
  destruct (exp_part r2) as [ex r3].
  destruct (fr ++ ex); [|discriminate].
  unfold int_of_digits.
  destruct (int_max_str_digits <? length ds) eqn:El;
    [|rewrite andb_false_r; discriminate].
  destruct (negb (int_max_str_digits =? 0)); [|discriminate].
  intros E; inversion E. exists (length ds). split; [reflexivity|].
  apply Nat.ltb_lt. assumption.
Qed.

Lemma scan_atom_ok (s : pystr) : scan_ok (scan_atom s) s.
Proof.
  unfold scan_atom.
  repeat match goal with
  | |- context [strip_prefix ?p s] =>
      let E := fresh "E" in
      destruct (strip_prefix p s) eqn:E;
      [apply strip_prefix_length in E; simpl in *; lia|]
  end.
  destruct (match_number s) as [[[v|e] r]|] eqn:Em; simpl.
  - eapply match_number_length; eauto.
  - apply match_number_raises in Em. destruct Em as (digits & -> & _).
    right; left; reflexivity.
  - left; reflexivity.
Qed.

Lemma scanstring_ok_bounded (n : nat) :
  forall s acc, length s <= n -> scanstring_ok (scanstring s acc) s.
Proof.
  induction n as [|n IH]; intros s acc Hn.
  - destruct s; simpl in *; [reflexivity | lia].
  - assert (Step : forall t acc', length t < length s ->
              scanstring_ok (scanstring t acc') t ->
              scanstring_ok (scanstring t acc') s).
    { intros t acc' Ht. unfold scanstring_ok.
      destruct (scanstring t acc') as [[? rest]|]; auto. lia. }
    assert (Rec : forall t acc', length t < length s ->
              scanstring_ok (scanstring t acc') s).
    { intros t acc' Ht. apply Step; auto. apply IH. lia. }
    destruct s as [|c t]; [reflexivity|].
    cbn [scanstring].
    destruct (c =? 34)%N; [simpl; lia|].
    destruct (c =? 92)%N.
    + destruct t as [|e t1]; [reflexivity|].
      destruct (e =? 117)%N.
      * destruct t1 as [|h1 [|h2 [|h3 [|h4 t2]]]]; try reflexivity.
        destruct (hex4 h1 h2 h3 h4) as [u|]; [|reflexivity].
        destruct t2 as [|b [|v [|l1 [|l2 [|l3 [|l4 t3]]]]]];
          try (apply Rec; simpl; lia).
        destruct (is_high_surrogate u && (b =? 92)%N && (v =? 117)%N);
          [|apply Rec; simpl; lia].
        destruct (hex4 l1 l2 l3 l4) as [u2|]; [|reflexivity].
        destruct (is_low_surrogate u2); apply Rec; simpl; lia.
      * destruct (unescape e); [apply Rec; simpl; lia | reflexivity].
    + destruct (c <=? 31)%N; [reflexivity | apply Rec; simpl; lia].
Qed.

Lemma scanstring_ok_holds (s acc : pystr) :
  scanstring_ok (scanstring s acc) s.
Proof. apply (scanstring_ok_bounded (length s)); lia. Qed.

Lemma scan_ok_weaken (r : scan) (t s : pystr) :
  scan_ok r t -> length t <= length s -> scan_ok r s.
Proof. destruct r; simpl; auto; lia. Qed.

Lemma scan_fuel_enough (fuel : nat) :
  (forall depth s,
     2 * length s + 1 <= fuel -> scan_ok (scan_once fuel depth s) s) /\
  (forall depth s pairs,
     2 * length s + 2 <= fuel ->
     scan_ok (parse_object fuel depth s pairs) s) /\
  (forall depth s values,
     2 * length s + 2 <= fuel ->
     scan_ok (parse_array fuel depth s values) s).
Proof.
  induction fuel as [|f [IHscan [IHobj IHarr]]].
  { repeat split; intros; lia. }
  split; [|split].
  - (* scan_once *)
    intros depth [|c t] Hf; [left; reflexivity|].
    cbn [scan_once]. simpl length in Hf.
    pose proof (skip_ws_length t) as Lt.
    destruct (c =? 34)%N.
    { pose proof (scanstring_ok_holds t []) as Hs.
      destruct (scanstring t []) as [[str rest]|e]; simpl in *;
        [lia | left; assumption]. }
    destruct (c =? 123)%N.
    { destruct depth as [|d]; [right; right; reflexivity|].
      destruct (skip_ws t) as [|c1 t1].
      - apply scan_ok_weaken with (t := []); [apply IHobj|]; simpl; lia.
      - simpl in Lt. destruct (c1 =? 125)%N; [simpl; lia|].
        apply scan_ok_weaken with (t := c1 :: t1); [apply IHobj|];
          simpl; lia. }
    destruct (c =? 91)%N.
    { destruct depth as [|d]; [right; right; reflexivity|].
      destruct (skip_ws t) as [|c1 t1].
      - apply scan_ok_weaken with (t := []); [apply IHarr|]; simpl; lia.
      - simpl in Lt. destruct (c1 =? 93)%N; [simpl; lia|].
        apply scan_ok_weaken with (t := c1 :: t1); [apply IHarr|];
          simpl; lia. }
    apply scan_atom_ok.
  - (* parse_object *)
    intros depth [|c t] pairs Hf; [left; reflexivity|].
    cbn [parse_object]. simpl length in Hf.
    destruct (c =? 34)%N; [|left; reflexivity].
    pose proof (scanstring_ok_holds t []) as Hs.
    destruct (scanstring t []) as [[key r1]|e]; simpl in Hs;
      [|left; exact Hs].
    pose proof (skip_ws_length r1) as L1.
    destruct (skip_ws r1) as [|c2 r2]; [left; reflexivity|]. simpl in L1.
    destruct (c2 =? 58)%N; [|left; reflexivity].
    pose proof (skip_ws_length r2) as L2.
    assert (Hv : scan_ok (scan_once f depth (skip_ws r2)) (skip_ws r2))
      by (apply IHscan; lia).
    destruct (scan_once f depth (skip_ws r2)) as [v r3|e|]; simpl in Hv;
      [|exact Hv|exact Hv].
    pose proof (skip_ws_length r3) as L3.
    destruct (skip_ws r3) as [|c4 r4]; [left; reflexivity|]. simpl in L3.
    destruct (c4 =? 125)%N; [simpl; lia|].
    destruct (c4 =? 44)%N; [|left; reflexivity].
    pose proof (skip_ws_length r4) as L4.
    apply scan_ok_weaken with (t := skip_ws r4); [apply IHobj|];
      simpl; lia.
  - (* parse_array *)
    intros depth s values Hf.
    cbn [parse_array].
    assert (Hv : scan_ok (scan_once f depth s) s) by (apply IHscan; lia).
    destruct (scan_once f depth s) as [v r1|e|]; simpl in Hv;
      [|exact Hv|exact Hv].
    pose proof (skip_ws_length r1) as L1.
    destruct (skip_ws r1) as [|c2 r2]; [left; reflexivity|]. simpl in L1.
    destruct (c2 =? 93)%N; [simpl; lia|].
    destruct (c2 =? 44)%N; [|left; reflexivity].
    pose proof (skip_ws_length r2) as L2.
    apply scan_ok_weaken with (t := skip_ws r2); [apply IHarr|];
      simpl; lia.
Qed.

(** The object loop only ever yields a dictionary. *)
Lemma parse_object_dict (fuel : nat) :
  forall depth s pairs v rest,
    parse_object fuel depth s pairs = Done v rest -> exists d, v = PDict d.
Proof.
  induction fuel as [|f IH]; intros depth s pairs v rest; [discriminate|].
  cbn [parse_object].
  destruct s as [|c t]; [discriminate|].
  destruct (c =? 34)%N; [|discriminate].
  destruct (scanstring t []) as [[key r1]|e]; [|discriminate].
  destruct (skip_ws r1) as [|c2 r2]; [discriminate|].
  destruct (c2 =? 58)%N; [|discriminate].
  destruct (scan_once f depth (skip_ws r2)) as [w r3|e|]; try discriminate.
  destruct (skip_ws r3) as [|c4 r4]; [discriminate|].
  destruct (c4 =? 125)%N.
  - intros E; inversion E; eauto.
  - destruct (c4 =? 44)%N; [apply IH | discriminate].
Qed.

Lemma scan_once_object (fuel depth : nat) (t : pystr) (v : pyval)
    (rest : pystr) :
  scan_once fuel depth (123%N :: t) = Done v rest -> exists d, v = PDict d.
Proof.
  destruct fuel as [|f]; [discriminate|].
  cbn [scan_once]. simpl N.eqb.
  destruct depth as [|d]; [discriminate|].
  destruct (skip_ws t) as [|c1 t1].
  - apply parse_object_dict.
  - destruct (c1 =? 125)%N; [|apply parse_object_dict].
    intros E; inversion E; eauto.
Qed.

(** [json.loads] fails in the three ways of the decoder and in no
    other. *)
Lemma json_loads_raises (s : pystr) (e : exn) :
  json_loads s = Raise e -> is_decoder_failure e.
Proof.
  unfold json_loads, decode.
  destruct (strip_prefix [65279%N] s).
  { intros E; inversion E; left; reflexivity. }
  pose proof (skip_ws_length s) as L.
  assert (H : scan_ok (scan_once (S (2 * length s)) recursion_limit
                         (skip_ws s)) (skip_ws s))
    by (apply (scan_fuel_enough (S (2 * length s))); lia).
  destruct (scan_once (S (2 * length s)) recursion_limit (skip_ws s))
    as [v rest|e'|]; simpl in H.
  - destruct (skip_ws rest); intros E; inversion E; left; reflexivity.
  - intros E; inversion E; subst. exact H.
  - contradiction.
Qed.

(** A text that opens with a brace decodes to a dictionary or not at all. *)
Lemma json_loads_object (t : pystr) (v : pyval) :
  json_loads (123%N :: t) = Ok v -> exists d, v = PDict d.
Proof.
  unfold json_loads, decode. simpl strip_prefix. simpl skip_ws.
  destruct (scan_once _ recursion_limit (123%N :: t)) as [w rest|e|] eqn:Es;
    try discriminate.
  apply scan_once_object in Es.
  destruct (skip_ws rest); [|discriminate].
  intros E; inversion E; subst; assumption.
Qed.

(** ** The response interpreter *)

Lemma greedy_to_close_none (s : pystr) :
  ~ In 125%N s -> greedy_to_close s = None.
Proof.
  induction s as [|c t IH]; simpl; [reflexivity|].
  intros H. rewrite IH by tauto.
  destruct (N.eqb_spec c 125); [subst; tauto | reflexivity].
Qed.

Lemma greedy_to_close_last (body post : pystr) :
  ~ In 125%N post ->
  greedy_to_close (body ++ 125%N :: post) = Some (body ++ [125%N]).
Proof.
  intros H. induction body as [|c body IH]; simpl.
  - rewrite greedy_to_close_none by assumption. reflexivity.
  - rewrite IH. reflexivity.
Qed.

Lemma greedy_to_close_none_inv (s : pystr) :
  greedy_to_close s = None -> ~ In 125%N s.
Proof.
  induction s as [|c t IH]; simpl; [tauto|].
  destruct (greedy_to_close t); [discriminate|].
  destruct (N.eqb_spec c 125); [discriminate|].
  intros _ [?|?]; [congruence | tauto].
Qed.

Lemma greedy_to_close_some (s m : pystr) :
  greedy_to_close s = Some m ->
  exists body post,
    m = body ++ [125%N] /\ s = m ++ post /\ ~ In 125%N post.
Proof.
  revert m; induction s as [|c t IH]; simpl; intros m; [discriminate|].
  destruct (greedy_to_close t) as [m'|] eqn:E.
  - intros H; inversion H; subst.
    destruct (IH m' eq_refl) as (body & post & -> & -> & Hp).
    exists (c :: body), post. repeat split; auto.
  - destruct (N.eqb_spec c 125); [|discriminate].
    intros H; inversion H; subst.
    exists [], t. repeat split; auto.
    apply greedy_to_close_none_inv; assumption.
Qed.

(** The match runs from the first opening brace of the text to its last
    closing brace. *)
Lemma re_search_some (s m : pystr) :
  re_search s = Some m ->
  exists pre body post,
    s = pre ++ m ++ post /\ m = 123%N :: body ++ [125%N] /\
    ~ In 123%N pre /\ ~ In 125%N post.
Proof.
  revert m; induction s as [|c t IH]; simpl; intros m; [discriminate|].
  destruct (N.eqb_spec c 123) as [->|Hc].
  - destruct (greedy_to_close t) as [m'|] eqn:E.
    + intros H; inversion H; subst.
      apply greedy_to_close_some in E.
      destruct E as (body & post & -> & -> & Hp).
      exists [], body, post. repeat split; auto.
    + intros H. exfalso.
      destruct (IH m H) as (pre & body & post & -> & -> & _).
      apply greedy_to_close_none_inv in E. apply E.
      rewrite !in_app_iff. right; left. simpl. right.
      rewrite in_app_iff. right; left; reflexivity.
  - intros H.
    destruct (IH m H) as (pre & body & post & -> & -> & Hpre & Hpost).
    exists (c :: pre), body, post. repeat split; auto.
    simpl. intros [?|?]; [congruence | tauto].
Qed.

Lemma re_search_skip (pre rest : pystr) :
  ~ In 123%N pre -> re_search (pre ++ rest) = re_search rest.
Proof.
  induction pre as [|c pre IH]; simpl; [reflexivity|].
  intros H. destruct (N.eqb_spec c 123); [subst; tauto|].
  apply IH; tauto.
Qed.

(** A text written as a prefix without opening brace, a braced block and
    a suffix without closing brace matches on exactly the block. *)
Lemma re_search_block (pre body post : pystr) :
  ~ In 123%N pre -> ~ In 125%N post ->
  re_search (pre ++ (123%N :: body ++ [125%N]) ++ post)
  = Some (123%N :: body ++ [125%N]).
Proof.
  intros Hpre Hpost. rewrite re_search_skip by assumption.
  simpl. rewrite <- app_assoc. simpl.
  rewrite greedy_to_close_last by assumption. reflexivity.
Qed.

(** No match exactly when no opening brace has a closing brace after it. *)
Lemma re_search_none (s : pystr) :
  re_search s = None <->
  ~ exists a b c, s = a ++ 123%N :: b ++ 125%N :: c.
Proof.
  split.
  - intros H (a & b & c & ->).
    revert H. induction a as [|x a IH]; simpl.
    + assert (E : exists m, greedy_to_close (b ++ 125%N :: c) = Some m).
      { clear. induction b as [|y b IHb]; simpl.
        - destruct (greedy_to_close c); eauto.
        - destruct IHb as [m ->]; eauto. }
      destruct E as [m ->]. discriminate.
    + destruct (x =? 123)%N; [|exact IH].
      destruct (greedy_to_close _); [discriminate | exact IH].
  - intros H. destruct (re_search s) as [m|] eqn:E; [|reflexivity].
    exfalso; apply H.
    apply re_search_some in E.
    destruct E as (pre & body & post & -> & -> & _).
    exists pre, body, post. simpl. rewrite <- app_assoc. reflexivity.
Qed.

(** The interpreter yields a dictionary, or lets out a failure of the
    decoder that is no [JSONDecodeError]. *)
Lemma _parse_json_response_cases (response_text : pystr) :
  (exists d, _parse_json_response response_text = Ok (PDict d))
  \/ (exists e,
        _parse_json_response response_text = Raise e
        /\ is_JSONDecodeError e = false /\ is_decoder_failure e).
Proof.
  unfold _parse_json_response.
  destruct (re_search response_text) as [m|] eqn:E; simpl; eauto.
  apply re_search_some in E.
  destruct E as (pre & body & post & _ & -> & _).
  destruct (json_loads _) as [v|e] eqn:El; simpl.
  - apply json_loads_object in El. destruct El as [d ->]. eauto.
  - apply json_loads_raises in El.
    destruct (is_JSONDecodeError e) eqn:Ec; eauto.
Qed.

(** When decoding the candidate fails with a [JSONDecodeError], the
    result is the empty dictionary. *)
Lemma _parse_json_response_undecodable (response_text cand : pystr)
    (e : exn) :
  re_search response_text = Some cand -> json_loads cand = Raise e ->
  is_JSONDecodeError e = true ->
  _parse_json_response response_text = Ok (PDict []).
Proof.
  intros Hs Hl He. unfold _parse_json_response. rewrite Hs, Hl. simpl.
  rewrite He. reflexivity.
Qed.

(** Any other failure of the decoder passes through the handler. *)
Lemma _parse_json_response_propagates (response_text cand : pystr)
    (e : exn) :
  re_search response_text = Some cand -> json_loads cand = Raise e ->
  is_JSONDecodeError e = false ->
  _parse_json_response response_text = Raise e.
Proof.
  intros Hs Hl He. unfold _parse_json_response. rewrite Hs, Hl. simpl.
  rewrite He. reflexivity.
Qed.

Lemma _parse_json_response_decoded (response_text cand : pystr)
    (v : pyval) :
  re_search response_text = Some cand -> json_loads cand = Ok v ->
  _parse_json_response response_text = Ok v.
Proof.
  intros Hs Hl. unfold _parse_json_response. rewrite Hs, Hl. reflexivity.
Qed.

(** C4. The code at the failing inputs: on a reply whose payload holds
    an integer of 4301 digits the interpreter raises the [ValueError] of
    the conversion, and on a reply whose payload opens 2000 nested arrays
    it raises a [RecursionError], where the claim has it return the empty
    record; the handler catches [JSONDecodeError] only, so every other
    failure of the decoder leaves the interpreter.  The rest of the claim
    holds: the example reply [reply_summary_ok] gives the record with the
    single field [summary] equal to [ok], and a reply in which no opening
    brace has a closing brace after it, or whose candidate fails with a
    [JSONDecodeError], gives the empty record. *)
Theorem C4_interpreter_lets_other_failures_out :
  _parse_json_response reply_long_integer
  = Raise (int_conversion_error 4301)
  /\ exn_cls (int_conversion_error 4301) = OtherError (py "ValueError")
  /\ exn_msg (int_conversion_error 4301)
     = py "Exceeds the limit (4300 digits) for integer string conversion: "
       ++ py "value has 4301 digits; "
       ++ py "use sys.set_int_max_str_digits() to increase the limit"
  /\ _parse_json_response reply_deep_nesting
     = Raise (recursion_error "array")
  /\ (forall reply cand e,
        re_search reply = Some cand -> json_loads cand = Raise e ->
        is_JSONDecodeError e = false ->
        _parse_json_response reply = Raise e)
  /\ _parse_json_response reply_summary_ok
     = Ok (PDict [(py "summary", PStr (py "ok"))])
  /\ (forall reply,
        ~ (exists a b c, reply = a ++ 123%N :: b ++ 125%N :: c) ->
        _parse_json_response reply = Ok (PDict []))
  /\ (forall reply cand e,
        re_search reply = Some cand -> json_loads cand = Raise e ->
        is_JSONDecodeError e = true ->
        _parse_json_response reply = Ok (PDict [])).
Proof.
  split; [vm_compute; reflexivity|].
  split; [reflexivity|].
  split; [vm_compute; reflexivity|].
  split; [vm_compute; reflexivity|].
  split; [exact _parse_json_response_propagates|].
  split; [vm_compute; reflexivity|]. split.
  - intros reply H. apply re_search_none in H.
    unfold _parse_json_response. rewrite H. reflexivity.
  - exact _parse_json_response_undecodable.
Qed.

(** C4 at a reply without braces, at a reply whose candidate is not
    JSON, and at the reply with the long integer. *)
Lemma C4_interpreter_lets_other_failures_out_witness :
  _parse_json_response (py "no payload here") = Ok (PDict [])
  /\ _parse_json_response (py "see {oops} above") = Ok (PDict [])
  /\ _parse_json_response (py "so: " ++ reply_long_integer)
     = Raise (int_conversion_error 4301).
Proof.
  destruct C4_interpreter_lets_other_failures_out
    as (_ & _ & _ & _ & Hout & _ & Hnone & Hbad).
  split; [|split].
  - apply Hnone. apply re_search_none. reflexivity.
  - apply (Hbad _ (py "{oops}")
             (decode_error
                "Expecting property name enclosed in double quotes"));
      reflexivity.
  - apply (Hout _ reply_long_integer); vm_compute; reflexivity.
Defined.

(** C5, the claim as stated fails: a well-formed first block followed by
    commentary that contains a second bracketed region is not decoded. *)
Lemma C5_counterexample :
  ~ (forall block rest d,
       re_search block = Some block -> json_loads block = Ok (PDict d) ->
       _parse_json_response (block ++ rest) = Ok (PDict d)).
Proof.
  intros H.
  specialize (H (json_member "summary" (dq "ok")) (py " note {x}")
                [(py "summary", PStr (py "ok"))] eq_refl eq_refl).
  vm_compute in H. discriminate H.
Qed.

(** C5, amended. The decode candidate is the single greedy match: it
    starts at the first opening brace of the reply and ends at the last
    closing brace of the whole reply.  The interpreter returns what that
    one candidate decodes to, and the empty record when decoding it fails
    with a [JSONDecodeError].  Hence a well-formed first block is decoded
    when no closing brace follows it in the reply. *)
Theorem C5_candidate_is_first_open_to_last_close :
  (forall reply cand,
     re_search reply = Some cand ->
     (exists pre body post,
        reply = pre ++ cand ++ post /\ cand = 123%N :: body ++ [125%N] /\
        ~ In 123%N pre /\ ~ In 125%N post)
     /\ (forall v,
          json_loads cand = Ok v -> _parse_json_response reply = Ok v)
     /\ (forall e,
          json_loads cand = Raise e -> is_JSONDecodeError e = true ->
          _parse_json_response reply = Ok (PDict [])))
  /\ (forall pre body post v,
        ~ In 123%N pre -> ~ In 125%N post ->
        json_loads (123%N :: body ++ [125%N]) = Ok v ->
        _parse_json_response (pre ++ (123%N :: body ++ [125%N]) ++ post)
        = Ok v).
Proof.
  split.
  - intros reply cand H. split; [|split].
    + apply re_search_some; assumption.
    + intros v. apply _parse_json_response_decoded; assumption.
    + intros e. apply _parse_json_response_undecodable; assumption.
  - intros pre body post v Hpre Hpost Hl.
    apply _parse_json_response_decoded
      with (cand := 123%N :: body ++ [125%N]);
      [apply re_search_block|]; assumption.
Qed.

(** C5, amended, at the reply with two bracketed regions and at the
    example reply, whose block has no closing brace after it. *)
Lemma C5_candidate_is_first_open_to_last_close_witness :
  _parse_json_response reply_two_regions = Ok (PDict [])
  /\ _parse_json_response reply_summary_ok
     = Ok (PDict [(py "summary", PStr (py "ok"))]).
Proof.
  destruct C5_candidate_is_first_open_to_last_close as (Hcand & Hblock).
  split.
  - destruct (Hcand reply_two_regions reply_two_regions eq_refl)
      as (_ & _ & Hbad).
    apply (Hbad (decode_error "Extra data")); reflexivity.
  - apply (Hblock (py "blah blah ")
             (dq "summary" ++ py ": " ++ dq "ok") (py " trailing junk")).
    + vm_compute. intuition discriminate.
    + vm_compute. intuition discriminate.
    + reflexivity.
Defined.

(** ** The operations *)

Lemma try_except_Exception {A : Type} (body : res A)
    (handler : exn -> res A) :
  try_except body is_Exception handler
  = match body with
    | Ok a => Ok a
    | Raise e => handler e
    end.
Proof. destruct body; reflexivity. Qed.

(** *** Severity counts *)

Lemma select_severity_filter (label : pystr) (items sel : list pyval) :
  select_severity label items = Ok sel ->
  sel = filter (has_severity label) items.
Proof.
  revert sel; induction items as [|r rest IH]; simpl; intros sel.
  - intros E; inversion E; reflexivity.
  - destruct r as [| | | | | |d]; simpl; try discriminate.
    destruct (select_severity label rest) as [sel'|e]; simpl; [|discriminate].
    rewrite (IH sel' eq_refl).
    unfold dict_get. destruct (dict_lookup d (py "severity")) as [v|];
      simpl; intros E; inversion E; reflexivity.
Qed.

Lemma count_severity_label (risks : pyval) (label : pystr) (n : nat) :
  count_severity risks label = Ok n ->
  exists items, py_iter risks = Ok items /\ n = count_label label items.
Proof.
  unfold count_severity, count_label.
  destruct (py_iter risks) as [items|e]; simpl; [|discriminate].
  destruct (select_severity label items) as [sel|e] eqn:E; simpl;
    [|discriminate].
  apply select_severity_filter in E. subst sel.
  intros H; inversion H. eauto.
Qed.

Lemma py_len_iter (risks : pyval) (n : nat) (items : list pyval) :
  py_len risks = Ok n -> py_iter risks = Ok items -> n = length items.
Proof.
  destruct risks; simpl; try discriminate;
    intros E1 E2; inversion E1; inversion E2; subst;
    rewrite ?length_map; reflexivity.
Qed.

(** An item carries at most one of the three severities. *)
Lemma has_severity_exclusive (r : pyval) :
  (if has_severity (py "High") r then 1 else 0)
  + (if has_severity (py "Medium") r then 1 else 0)
  + (if has_severity (py "Low") r then 1 else 0)
  = if known_severity r then 1 else 0.
Proof.
  unfold known_severity, has_severity.
  destruct r as [| | | | | |d]; try reflexivity.
  destruct (dict_lookup d (py "severity")) as [[| | | |s| |]|];
    try reflexivity.
  simpl py_eq_str.
  destruct (str_eqb s (py "High")) eqn:EH.
  { apply str_eqb_eq in EH; subst; reflexivity. }
  destruct (str_eqb s (py "Medium")) eqn:EM.
  { apply str_eqb_eq in EM; subst; reflexivity. }
  destruct (str_eqb s (py "Low")); reflexivity.
Qed.

Lemma count_label_cons (label : pystr) (r : pyval) (items : list pyval) :
  count_label label (r :: items)
  = (if has_severity label r then 1 else 0) + count_label label items.
Proof.
  unfold count_label; simpl. destruct (has_severity label r); reflexivity.
Qed.

Lemma severity_counts_sum (items : list pyval) :
  count_label (py "High") items + count_label (py "Medium") items
  + count_label (py "Low") items
  = length (filter known_severity items).
Proof.
  induction items as [|r items IH]; [reflexivity|].
  rewrite !count_label_cons. simpl filter.
  pose proof (has_severity_exclusive r) as E.
  destruct (known_severity r); simpl length; lia.
Qed.

Lemma filter_all_length {A : Type} (f : A -> bool) (l : list A) :
  length (filter f l) <= length l
  /\ (length (filter f l) = length l <-> forallb f l = true).
Proof.
  induction l as [|x l [IHle IHeq]]; simpl.
  - split; [lia | tauto].
  - destruct (f x); simpl.
    + split; [lia|]. rewrite <- IHeq. split; lia.
    + split; [lia|]. split; [lia | discriminate].
Qed.

(** C1, the claim as stated fails: one risk item with the severity
    [Critical] gives a total of one and three counts of zero. *)
Lemma C1_counterexample :
  exists report total high medium low,
    detect_risks_advanced (replying reply_critical_risk) [] (py "English")
    = Ok (PDict report)
    /\ dict_lookup report (py "total_risks") = Some (PInt total)
    /\ dict_lookup report (py "high_risk_count") = Some (PInt high)
    /\ dict_lookup report (py "medium_risk_count") = Some (PInt medium)
    /\ dict_lookup report (py "low_risk_count") = Some (PInt low)
    /\ (high + medium + low <> total)%Z.
Proof.
  eexists _, 1%Z, 0%Z, 0%Z, 0%Z.
  split; [vm_compute; reflexivity|].
  repeat split; try reflexivity. discriminate.
Qed.

(** C1, amended. Every report returned by [detect_risks_advanced] has
    [total_risks] equal to the length of its [risks], and each severity
    count equal to the number of items of [risks] whose severity is
    exactly that label: the counts are computed from the sequence, not
    read from the reply.  Their sum is at most [total_risks], and equals
    it exactly when every item carries one of [High], [Medium], [Low]. *)
Theorem C1_counts_derived_from_risks :
  forall (self : AIProcessor) (text language : pystr),
  exists (report : dict) (risks : pyval) (items : list pyval),
    detect_risks_advanced self text language = Ok (PDict report)
    /\ dict_lookup report (py "risks") = Some risks
    /\ py_iter risks = Ok items
    /\ py_len risks = Ok (length items)
    /\ dict_lookup report (py "total_risks") = Some (py_int (length items))
    /\ dict_lookup report (py "high_risk_count")
       = Some (py_int (count_label (py "High") items))
    /\ dict_lookup report (py "medium_risk_count")
       = Some (py_int (count_label (py "Medium") items))
    /\ dict_lookup report (py "low_risk_count")
       = Some (py_int (count_label (py "Low") items))
    /\ count_label (py "High") items + count_label (py "Medium") items
       + count_label (py "Low") items <= length items
    /\ (count_label (py "High") items + count_label (py "Medium") items
        + count_label (py "Low") items = length items
        <-> forallb known_severity items = true).
Proof.
  intros self text language.
  unfold detect_risks_advanced. rewrite try_except_Exception.
  destruct (detect_risks_advanced_try self text language) as [r|e] eqn:Etry.
  - unfold detect_risks_advanced_try in Etry.
    destruct (generate_content self _) as [reply|?]; simpl in Etry;
      [|discriminate].
    destruct (_parse_json_response reply) as [result|?]; simpl in Etry;
      [|discriminate].
    destruct (py_get result (py "risks") (PList [])) as [risks|?];
      simpl in Etry; [|discriminate].
    destruct (py_len risks) as [total|?] eqn:Elen; simpl in Etry;
      [|discriminate].
    destruct (count_severity risks (py "High")) as [high|?] eqn:Eh;
      simpl in Etry; [|discriminate].
    destruct (count_severity risks (py "Medium")) as [medium|?] eqn:Em;
      simpl in Etry; [|discriminate].
    destruct (count_severity risks (py "Low")) as [low|?] eqn:El;
      simpl in Etry; [|discriminate].
    inversion Etry; subst r; clear Etry.
    apply count_severity_label in Eh, Em, El.
    destruct Eh as (items & Hit & ->).
    destruct Em as (items' & Hit' & ->).
    destruct El as (items'' & Hit'' & ->).
    rewrite Hit in Hit', Hit''. inversion Hit'; inversion Hit''; subst.
    pose proof (py_len_iter _ _ _ Elen Hit); subst total.
    eexists _, risks, items''.
    split; [reflexivity|].
    rewrite severity_counts_sum.
    do 7 (split; [first [reflexivity | assumption]|]).
    apply (filter_all_length known_severity items'').
  - exists [(py "total_risks", PInt 0); (py "high_risk_count", PInt 0);
            (py "medium_risk_count", PInt 0); (py "low_risk_count", PInt 0);
            (py "risks", PList []); (py "language", PStr language);
            (py "error", PStr (exn_msg e))], (PList []), [].
    repeat split; reflexivity.
Qed.

(** *** The two paths of each operation *)

Lemma summarize_document_failure (self : AIProcessor) (text language : pystr)
    (e : exn) :
  generate_content self (summarize_prompt text language) = Raise e ->
  summarize_document_try self text language = Raise e.
Proof. unfold summarize_document_try. intros ->. reflexivity. Qed.

Lemma summarize_document_success (self : AIProcessor) (text language : pystr)
    (reply : pystr) (d : dict) :
  generate_content self (summarize_prompt text language) = Ok reply ->
  _parse_json_response reply = Ok (PDict d) ->
  summarize_document_try self text language
  = Ok (PDict
          [(py "summary",
             dict_get d (py "summary") (PStr (py "Summary not available")));
           (py "key_points", dict_get d (py "key_points") (PList []));
           (py "important_dates",
             dict_get d (py "important_dates") (PList []));
           (py "parties", dict_get d (py "parties") (PList []));
           (py "language", PStr language)]).
Proof.
  unfold summarize_document_try. intros -> . simpl. intros ->. reflexivity.
Qed.

Lemma summarize_document_parse_failure (self : AIProcessor)
    (text language reply : pystr) (e : exn) :
  generate_content self (summarize_prompt text language) = Ok reply ->
  _parse_json_response reply = Raise e ->
  summarize_document_try self text language = Raise e.
Proof.
  unfold summarize_document_try. intros ->. simpl. intros ->. reflexivity.
Qed.

(** The body of [summarize_document] raises, or the model replied and
    the reply was interpreted. *)
Lemma summarize_document_paths (self : AIProcessor) (text language : pystr) :
  (exists e, summarize_document_try self text language = Raise e)
  \/ (exists reply d,
        generate_content self (summarize_prompt text language) = Ok reply
        /\ _parse_json_response reply = Ok (PDict d)).
Proof.
  destruct (generate_content self (summarize_prompt text language))
    as [reply|e] eqn:Hr.
  - destruct (_parse_json_response_cases reply) as [[d Hd]|(e & He & _)].
    + right; eauto.
    + left. exists e. apply summarize_document_parse_failure with reply;
        assumption.
  - left. exists e. apply summarize_document_failure; assumption.
Qed.

Lemma detect_risks_advanced_failure (self : AIProcessor)
    (text language : pystr) (e : exn) :
  generate_content self (risk_prompt text language) = Raise e ->
  detect_risks_advanced_try self text language = Raise e.
Proof. unfold detect_risks_advanced_try. intros ->. reflexivity. Qed.

Lemma detect_risks_advanced_parse_failure (self : AIProcessor)
    (text language reply : pystr) (e : exn) :
  generate_content self (risk_prompt text language) = Ok reply ->
  _parse_json_response reply = Raise e ->
  detect_risks_advanced_try self text language = Raise e.
Proof.
  unfold detect_risks_advanced_try. intros ->. simpl. intros ->. reflexivity.
Qed.

(** Runs through a chain of binds, keeping the branch in which every
    step returned. *)
Ltac all_steps_return :=
  repeat match goal with
  | |- context [bind ?m _] => destruct m; simpl; [|discriminate]
  end.

Lemma detect_risks_advanced_keys (self : AIProcessor)
    (text language : pystr) (r : pyval) :
  detect_risks_advanced_try self text language = Ok r ->
  exists d, r = PDict d /\ dict_keys d = risk_report_keys.
Proof.
  unfold detect_risks_advanced_try.
  all_steps_return.
  intros E; inversion E. eexists; split; reflexivity.
Qed.





(** C8, the claim as stated fails: when the reply gives [key_points] as
    a number, the summary carries that number, which is no sequence. *)
Lemma C8_counterexample :
  exists d v,
    summarize_document (replying reply_numeric_key_points) []
      (py "English") = Ok (PDict d)
    /\ dict_lookup d (py "key_points") = Some v
    /\ is_sequence v = false.
Proof.
  eexists _, (PInt 7).
  split; [vm_compute; reflexivity|]. split; reflexivity.
Qed.

(** C8, amended. [summarize_document] always returns a record with the
    five fields, whose [language] is the requested one on both paths and
    whose [key_points], [important_dates] and [parties] are never
    absent: each is the empty list when the operation degrades or the
    reply lacks the field, and otherwise the value the reply gave for it,
    whatever its type. *)
Theorem C8_summary_language_and_fields :
  forall (self : AIProcessor) (text language : pystr),
  exists summary key_points important_dates parties,
    summarize_document self text language
    = Ok (PDict [(py "summary", summary);
                 (py "key_points", key_points);
                 (py "important_dates", important_dates);
                 (py "parties", parties);
                 (py "language", PStr language)])
    /\ ((exists e,
           summarize_document_try self text language = Raise e
           /\ key_points = PList [] /\ important_dates = PList []
           /\ parties = PList [])
        \/ (exists reply d,
              generate_content self (summarize_prompt text language)
              = Ok reply
              /\ _parse_json_response reply = Ok (PDict d)
              /\ key_points = dict_get d (py "key_points") (PList [])
              /\ important_dates
                 = dict_get d (py "important_dates") (PList [])
              /\ parties = dict_get d (py "parties") (PList []))).
Proof.
  intros self text language.
  unfold summarize_document. rewrite try_except_Exception.
  destruct (summarize_document_paths self text language)
    as [[e He]|(reply & d & Hr & Hd)].
  - rewrite He.
    do 4 eexists. split; [reflexivity|]. left. exists e. auto.
  - rewrite (summarize_document_success _ _ _ _ _ Hr Hd).
    do 4 eexists. split; [reflexivity|]. right. exists reply, d. auto.
Qed.

(** C2, the claim as stated fails: with an absent risk report the
    operation raises nothing and returns a [WARNING] record. *)
Lemma C2_counterexample :
  ~ (exists e,
       get_safety_recommendation (H := empty_report_builtins)
         (replying (json_member "safety_level" (dq "SAFE")))
         (py "text") PNone (py "English") = Raise e)
  /\ exists d,
       get_safety_recommendation (H := empty_report_builtins)
         (replying (json_member "safety_level" (dq "SAFE")))
         (py "text") PNone (py "English") = Ok (PDict d)
       /\ dict_lookup d (py "safety_level") = Some (PStr (py "WARNING")).
Proof.
  split.
  - intros [e He]. vm_compute in He. discriminate He.
  - eexists. split; [vm_compute; reflexivity | reflexivity].
Qed.

(** C2, amended. With an absent risk report, [get_safety_recommendation]
    signals no precondition error: reading the report raises an
    attribute error inside the operation, the handler that serves model
    failures catches it, and the operation returns the degraded [WARNING]
    record with that error text, without invoking the model. *)
Theorem C2_absent_report_degrades :
  forall `{Builtins} (self : AIProcessor) (text language : pystr),
    get_safety_recommendation self text PNone language
    = get_safety_recommendation_except language
        (Exn AttributeError (py "'NoneType' object has no attribute 'get'"))
    /\ get_safety_recommendation self text PNone language
       = Ok (PDict [(py "safety_level", PStr (py "WARNING"));
                    (py "recommendation",
                      PStr (py "Unable to analyze safety: "
                            ++ py "'NoneType' object has no attribute 'get'"));
                    (py "reasons",
                      PList [PStr (py "Analysis error occurred")]);
                    (py "suggestions",
                      PList [PStr
                               (py "Please review the document manually")]);
                    (py "language", PStr language)]).
Proof. intros B self text language. split; reflexivity. Qed.




(** *** Prompts *)

Lemma slice_to_short (n : nat) (s : pystr) :
  length s <= n -> slice_to n s = s.
Proof. intros H. apply firstn_all2; assumption. Qed.

Lemma slice_to_long (n : nat) (s : pystr) :
  n < length s ->
  length (slice_to n s) = n
  /\ exists rest, rest <> [] /\ s = slice_to n s ++ rest.
Proof.
  intros H. unfold slice_to. split.
  - rewrite length_firstn. lia.
  - exists (skipn n s). split.
    + intros E. apply (f_equal (@length N)) in E.
      rewrite length_skipn in E. simpl in E. lia.
    + symmetry. apply firstn_skipn.
Qed.

(** C7. The prompts of the summarization and risk stages embed the
    first 4000 characters of the document text, the prompt of the Q&A
    stage the first 3000, between parts that do not depend on the text;
    that prompt is the instruction the model receives.  A text within
    the budget is embedded unchanged; of a longer text exactly the prefix
    of the budget's length is embedded. *)
Theorem C7_prompts_embed_text_prefix :
  forall (text question language : pystr),
    summarize_prompt text language
    = summarize_prompt_head language ++ slice_to 4000 text
      ++ summarize_prompt_tail
    /\ risk_prompt text language
       = risk_prompt_head language ++ slice_to 4000 text
         ++ risk_prompt_tail language
    /\ answer_prompt question text language
       = answer_prompt_head question language ++ slice_to 3000 text
         ++ answer_prompt_tail
    /\ 3000 < 4000
    /\ summarize_document capturing text language
       = summarize_document_except language
           (Exn (OtherError (py "Captured"))
              (summarize_prompt text language))
    /\ detect_risks_advanced capturing text language
       = detect_risks_advanced_except language
           (Exn (OtherError (py "Captured")) (risk_prompt text language))
    /\ answer_question capturing question text language
       = answer_question_except
           (Exn (OtherError (py "Captured"))
              (answer_prompt question text language))
    /\ (forall budget, length text <= budget -> slice_to budget text = text)
    /\ (forall budget,
          budget < length text ->
          length (slice_to budget text) = budget
          /\ exists rest, rest <> [] /\ text = slice_to budget text ++ rest).
Proof.
  intros text question language.
  repeat apply conj; try reflexivity.
  - lia.
  - intros budget. apply slice_to_short.
  - intros budget. apply slice_to_long.
Qed.

(** C7 at the sample sentence, with a budget of three characters and
    with the summarization budget. *)
Lemma C7_prompts_embed_text_prefix_witness :
  length (slice_to 3 (py "Late payments incur a 5% penalty.")) = 3
  /\ slice_to 4000 (py "Late payments incur a 5% penalty.")
     = py "Late payments incur a 5% penalty.".
Proof.
  destruct (C7_prompts_embed_text_prefix
              (py "Late payments incur a 5% penalty.") [] [])
    as (_ & _ & _ & _ & _ & _ & _ & Hshort & Hlong).
  split.
  - destruct (Hlong 3) as (Hlen & _); [simpl; lia | exact Hlen].
  - apply Hshort. simpl. lia.
Defined.

(** *** The registry *)

Lemma registry_step_reads (self : AIProcessor) (c : registry_call)
    (g : globals) :
  registry_step self c g
  = (match c with
     | CallValidate language =>
         PBool (dict_contains (languages_table g) language)
     | CallList => PDict (languages_table g)
     end, g).
Proof. destruct c; reflexivity. Qed.

Lemma registry_run_reads (self : AIProcessor) (calls : list registry_call)
    (g : globals) :
  registry_run self calls g
  = (map (fun c =>
            match c with
            | CallValidate language =>
                PBool (dict_contains (languages_table g) language)
            | CallList => PDict (languages_table g)
            end) calls, g).
Proof.
  induction calls as [|c calls IH]; simpl; [reflexivity|].
  rewrite registry_step_reads, IH. reflexivity.
Qed.

(** C9. [validate_language] answers true exactly for the keys of the
    shipped table, so true for [English] and false for [Klingon];
    [get_supported_languages] returns that table, which is not empty;
    and over any sequence of calls to the two, every call sees the
    shipped table and leaves it as it was. *)
Theorem C9_language_registry :
  forall (self : AIProcessor),
    (forall name,
       exists b,
         validate_language self name config_loaded = (PBool b, config_loaded)
         /\ (b = true <-> In name (dict_keys SUPPORTED_LANGUAGES)))
    /\ validate_language self (py "English") config_loaded
       = (PBool true, config_loaded)
    /\ validate_language self (py "Klingon") config_loaded
       = (PBool false, config_loaded)
    /\ get_supported_languages self config_loaded
       = (PDict SUPPORTED_LANGUAGES, config_loaded)
    /\ SUPPORTED_LANGUAGES <> []
    /\ (forall calls,
          registry_run self calls config_loaded
          = (map (fun c =>
                    match c with
                    | CallValidate name =>
                        PBool (dict_contains SUPPORTED_LANGUAGES name)
                    | CallList => PDict SUPPORTED_LANGUAGES
                    end) calls,
             config_loaded)).
Proof.
  intros self. repeat apply conj; try reflexivity.
  - intros name. eexists. split; [reflexivity|].
    apply dict_contains_In.
  - discriminate.
  - intros calls. apply registry_run_reads.
Qed.

(** * Further properties *)

(** ** White space: [strip] and [split] *)

Lemma lstrip_decompose (s : pystr) :
  exists sp, s = sp ++ lstrip s /\ forallb is_space sp = true.
Proof.
  induction s as [|c t (sp & E & Hsp)]; simpl.
  - exists []; auto.
  - destruct (is_space c) eqn:Ec.
    + exists (c :: sp). simpl. rewrite Ec, <- E. auto.
    + exists []; auto.
Qed.

Lemma lstrip_head (s : pystr) (c : N) (t : pystr) :
  lstrip s = c :: t -> is_space c = false.
Proof.
  induction s as [|x s IH]; simpl; [discriminate|].
  destruct (is_space x) eqn:Ex; [exact IH|].
  intros E; inversion E; subst; assumption.
Qed.

Lemma lstrip_fixed (s : pystr) :
  (forall c t, s = c :: t -> is_space c = false) -> lstrip s = s.
Proof.
  destruct s as [|c t]; [reflexivity|].
  intros H. simpl. rewrite (H c t eq_refl). reflexivity.
Qed.

(** The stripped text is what is left of the text between a run of white
    space at the front and one at the back. *)
Lemma strip_decompose (s : pystr) :
  exists front back,
    s = front ++ strip s ++ back
    /\ forallb is_space front = true /\ forallb is_space back = true.
Proof.
  unfold strip.
  destruct (lstrip_decompose s) as (front & E1 & H1).
  destruct (lstrip_decompose (rev (lstrip s))) as (kcab & E2 & H2).
  exists front, (rev kcab). repeat split; auto.
  - rewrite E1 at 1. f_equal.
    rewrite <- rev_app_distr, <- E2, rev_involutive. reflexivity.
  - rewrite forallb_forall in *. intros x Hx. apply H2.
    apply in_rev. assumption.
Qed.

Lemma strip_is_stripped (s : pystr) : is_stripped (strip s).
Proof.
  unfold strip. split.
  - intros c t E.
    destruct (lstrip_decompose (rev (lstrip s))) as (kcab & E2 & H2).
    apply (f_equal (@rev N)) in E2.
    rewrite rev_involutive, rev_app_distr, E in E2. simpl in E2.
    apply lstrip_head with (s := s) (t := t ++ rev kcab). assumption.
  - intros t c E.
    apply (f_equal (@rev N)) in E.
    rewrite rev_involutive, rev_app_distr in E. simpl in E.
    apply lstrip_head in E. assumption.
Qed.

Lemma strip_fixed (s : pystr) : is_stripped s -> strip s = s.
Proof.
  intros [Hhead Hlast]. unfold strip.
  rewrite (lstrip_fixed s Hhead).
  rewrite lstrip_fixed; [apply rev_involutive|].
  intros c t E. apply (Hlast (rev t) c).
  apply (f_equal (@rev N)) in E. rewrite rev_involutive in E.
  simpl in E. assumption.
Qed.

Lemma split_ws_from_spaces (sp cur : pystr) :
  forallb is_space sp = true ->
  split_ws_from sp cur = split_ws_from [] cur.
Proof.
  revert cur; induction sp as [|c sp IH]; intros cur H; [reflexivity|].
  simpl in H. apply andb_true_iff in H. destruct H as [Hc Hsp].
  simpl. rewrite Hc.
  destruct cur; rewrite (IH [] Hsp); reflexivity.
Qed.

Lemma split_ws_from_trailing (s sp cur : pystr) :
  forallb is_space sp = true ->
  split_ws_from (s ++ sp) cur = split_ws_from s cur.
Proof.
  intros H. revert cur; induction s as [|c s IH]; intros cur.
  - apply split_ws_from_spaces; assumption.
  - simpl. destruct (is_space c); [destruct cur|]; rewrite IH; reflexivity.
Qed.

Lemma split_ws_leading (sp s : pystr) :
  forallb is_space sp = true -> split_ws (sp ++ s) = split_ws s.
Proof.
  unfold split_ws. induction sp as [|c sp IH]; intros H; [reflexivity|].
  simpl in H. apply andb_true_iff in H. destruct H as [Hc Hsp].
  simpl. rewrite Hc. auto.
Qed.

Lemma split_ws_strip (s : pystr) : split_ws (strip s) = split_ws s.
Proof.
  destruct (strip_decompose s) as (front & back & E & Hf & Hb).
  rewrite E at 2. rewrite split_ws_leading by assumption.
  unfold split_ws. rewrite split_ws_from_trailing by assumption.
  reflexivity.
Qed.

(** A white space character between two texts separates their words. *)
Lemma split_ws_from_app (a b cur : pystr) (c : N) :
  is_space c = true ->
  split_ws_from (a ++ c :: b) cur = split_ws_from a cur ++ split_ws b.
Proof.
  intros Hc. unfold split_ws.
  revert cur; induction a as [|x a IH]; intros cur; simpl.
  - rewrite Hc. destruct cur; reflexivity.
  - destruct (is_space x); [destruct cur|]; rewrite IH; reflexivity.
Qed.

Lemma split_ws_from_pending (s cur : pystr) :
  cur <> [] -> split_ws_from s cur <> [].
Proof.
  revert cur; induction s as [|c s IH]; intros cur H; simpl.
  - destruct cur; [contradiction | discriminate].
  - destruct (is_space c).
    + destruct cur; [contradiction | discriminate].
    + apply IH. discriminate.
Qed.

(** A text whose stripped form is not empty has a word. *)
Lemma split_ws_nonblank (s : pystr) : strip s <> [] -> split_ws s <> [].
Proof.
  intros H. rewrite <- split_ws_strip.
  destruct (strip s) as [|c t] eqn:E; [contradiction|].
  destruct (strip_is_stripped s) as [Hhead _]. rewrite E in Hhead.
  unfold split_ws. simpl. rewrite (Hhead c t eq_refl).
  apply split_ws_from_pending. discriminate.
Qed.

Lemma split_ws_blank (s : pystr) : strip s = [] -> split_ws s = [].
Proof. intros H. rewrite <- split_ws_strip, H. reflexivity. Qed.

Lemma split_ws_words_nonempty (s cur : pystr) :
  Forall (fun w => w <> []) (split_ws_from s cur).
Proof.
  revert cur; induction s as [|c s IH]; intros cur; simpl.
  - destruct cur as [|x cur]; constructor; auto.
    intros E. apply (f_equal (@length N)) in E.
    rewrite length_rev in E. discriminate.
  - destruct (is_space c); [destruct cur as [|x cur]|]; auto.
    constructor; auto.
    intros E. apply (f_equal (@length N)) in E.
    rewrite length_rev in E. discriminate.
Qed.

(** ** Answers and translations *)

(** X1. When the model replies, the answer returned by [answer_question]
    and the translation returned by [translate_text] are the reply
    without the white space at its two ends: what was cut off is white
    space only, and the result neither begins nor ends with white
    space. *)
Theorem X1_text_results_are_stripped :
  forall (self : AIProcessor) (question text language : pystr),
    (forall reply,
       generate_content self (answer_prompt question text language)
       = Ok reply ->
       exists answer front back,
         answer_question self question text language = Ok answer
         /\ reply = front ++ answer ++ back
         /\ forallb is_space front = true
         /\ forallb is_space back = true
         /\ is_stripped answer)
    /\ (forall reply,
          generate_content self (translate_prompt text language)
          = Ok reply ->
          exists translation front back,
            translate_text self text language = Ok translation
            /\ reply = front ++ translation ++ back
            /\ forallb is_space front = true
            /\ forallb is_space back = true
            /\ is_stripped translation).
Proof.
  intros self question text language. split; intros reply Hr;
    destruct (strip_decompose reply) as (front & back & E & Hf & Hb);
    exists (strip reply), front, back;
    (split; [|repeat split; auto; apply strip_is_stripped]).
  - unfold answer_question, answer_question_try. rewrite Hr. reflexivity.
  - unfold translate_text, translate_text_try. rewrite Hr. reflexivity.
Qed.

(** X1 at a reply with white space around a two-word answer. *)
Lemma X1_text_results_are_stripped_witness :
  exists answer front back,
    answer_question (replying (py "  Pay early. ")) (py "When?") (py "doc")
      (py "English") = Ok answer
    /\ py "  Pay early. " = front ++ answer ++ back
    /\ is_stripped answer.
Proof.
  destruct (proj1 (X1_text_results_are_stripped
                     (replying (py "  Pay early. ")) (py "When?") (py "doc")
                     (py "English"))
              (py "  Pay early. ") eq_refl)
    as (answer & front & back & Ha & E & _ & _ & Hs).
  exists answer, front, back. auto.
Defined.

(** X2. [translate_text] raises nothing: it returns the stripped reply,
    or, when the model invocation fails, the text [Translation error: ]
    followed by the text of the exception. *)
Theorem X2_translate_text_always_returns :
  forall (self : AIProcessor) (text target_language : pystr),
    (exists translation,
       translate_text self text target_language = Ok translation)
    /\ (forall e,
          generate_content self (translate_prompt text target_language)
          = Raise e ->
          translate_text self text target_language
          = Ok (py "Translation error: " ++ exn_msg e)).
Proof.
  intros self text target_language.
  unfold translate_text, translate_text_try. split.
  - destruct (generate_content self _); simpl; eauto.
    unfold translate_text_except; eauto.
  - intros e ->. reflexivity.
Qed.

(** X2 at a model that fails. *)
Lemma X2_translate_text_always_returns_witness :
  translate_text (failing (Exn (OtherError (py "ResourceExhausted"))
                             (py "quota exceeded")))
    (py "Clause 1") (py "Hindi")
  = Ok (py "Translation error: quota exceeded").
Proof.
  exact (proj2 (X2_translate_text_always_returns
                  (failing (Exn (OtherError (py "ResourceExhausted"))
                              (py "quota exceeded")))
                  (py "Clause 1") (py "Hindi"))
           (Exn (OtherError (py "ResourceExhausted")) (py "quota exceeded"))
           eq_refl).
Defined.

(** X3. [translate_text] sends the text whole: two texts that differ
    anywhere give different prompts for the same target language. *)
Theorem X3_translate_prompt_keeps_whole_text :
  forall (text1 text2 target_language : pystr),
    text1 <> text2 ->
    translate_prompt text1 target_language
    <> translate_prompt text2 target_language.
Proof.
  intros text1 text2 target_language Hne E. apply Hne.
  unfold translate_prompt in E.
  apply app_inv_head in E. apply app_inv_tail in E. exact E.
Qed.

(** X3 at two texts that differ in their last character. *)
Lemma X3_translate_prompt_keeps_whole_text_witness :
  translate_prompt (py "Clause 1") (py "Hindi")
  <> translate_prompt (py "Clause 2") (py "Hindi").
Proof.
  apply X3_translate_prompt_keeps_whole_text. discriminate.
Defined.

(** X4. What lies beyond the budget never reaches the model: two texts
    with the same first 4000 characters give the same summary and the
    same risk report, and two with the same first 3000 characters the
    same answer, whatever the model is. *)
Theorem X4_text_beyond_budget_is_ignored :
  forall (self : AIProcessor) (text1 text2 question language : pystr),
    (firstn 4000 text1 = firstn 4000 text2 ->
     summarize_document self text1 language
     = summarize_document self text2 language
     /\ detect_risks_advanced self text1 language
        = detect_risks_advanced self text2 language)
    /\ (firstn 3000 text1 = firstn 3000 text2 ->
        answer_question self question text1 language
        = answer_question self question text2 language).
Proof.
  intros self text1 text2 question language. split.
  - intros E.
    unfold summarize_document, summarize_document_try, summarize_prompt,
      detect_risks_advanced, detect_risks_advanced_try, risk_prompt,
      slice_to.
    rewrite E. split; reflexivity.
  - intros E.
    unfold answer_question, answer_question_try, answer_prompt, slice_to.
    rewrite E. reflexivity.
Qed.

(** X4 at two texts of 4001 characters that differ in the last one. *)
Lemma X4_text_beyond_budget_is_ignored_witness :
  summarize_document capturing (repeat 97%N 4000 ++ [98%N]) (py "English")
  = summarize_document capturing (repeat 97%N 4000 ++ [99%N]) (py "English").
Proof.
  destruct (X4_text_beyond_budget_is_ignored capturing
              (repeat 97%N 4000 ++ [98%N]) (repeat 97%N 4000 ++ [99%N])
              [] (py "English")) as (H & _).
  apply H. vm_compute. reflexivity.
Defined.

(** ** More on the response interpreter *)

Lemma dict_set_keys (d : dict) (key : pystr) (v : pyval) :
  dict_keys (dict_set d key v)
  = if dict_contains d key then dict_keys d else dict_keys d ++ [key].
Proof.
  unfold dict_contains, dict_keys.
  induction d as [|[k w] d IH]; simpl; [reflexivity|].
  destruct (str_eqb k key) eqn:E; simpl; [reflexivity|].
  rewrite IH. destruct (dict_lookup d key); reflexivity.
Qed.

Lemma dict_set_NoDup (d : dict) (key : pystr) (v : pyval) :
  NoDup (dict_keys d) -> NoDup (dict_keys (dict_set d key v)).
Proof.
  intros H. rewrite dict_set_keys.
  destruct (dict_contains d key) eqn:E; [assumption|].
  apply NoDup_app; [assumption | repeat constructor; intros [] |].
  intros x Hx [<-|[]].
  apply dict_contains_In in Hx. congruence.
Qed.

Lemma parse_object_NoDup (fuel : nat) :
  forall depth s pairs d rest,
    NoDup (dict_keys pairs) ->
    parse_object fuel depth s pairs = Done (PDict d) rest ->
    NoDup (dict_keys d).
Proof.
  induction fuel as [|f IH]; intros depth s pairs d rest Hp; [discriminate|].
  cbn [parse_object].
  destruct s as [|c t]; [discriminate|].
  destruct (c =? 34)%N; [|discriminate].
  destruct (scanstring t []) as [[key r1]|e]; [|discriminate].
  destruct (skip_ws r1) as [|c2 r2]; [discriminate|].
  destruct (c2 =? 58)%N; [|discriminate].
  destruct (scan_once f depth (skip_ws r2)) as [w r3|e|]; try discriminate.
  destruct (skip_ws r3) as [|c4 r4]; [discriminate|].
  destruct (c4 =? 125)%N.
  - intros E; inversion E; subst. apply dict_set_NoDup; assumption.
  - destruct (c4 =? 44)%N; [|discriminate].
    apply IH. apply dict_set_NoDup; assumption.
Qed.

Lemma scan_once_object_NoDup (fuel depth : nat) (t : pystr) (d : dict)
    (rest : pystr) :
  scan_once fuel depth (123%N :: t) = Done (PDict d) rest ->
  NoDup (dict_keys d).
Proof.
  destruct fuel as [|f]; [discriminate|].
  cbn [scan_once]. simpl N.eqb.
  destruct depth as [|n]; [discriminate|].
  destruct (skip_ws t) as [|c1 t1].
  - apply parse_object_NoDup; constructor.
  - destruct (c1 =? 125)%N; [|apply parse_object_NoDup; constructor].
    intros E; inversion E; constructor.
Qed.

Lemma json_loads_object_NoDup (t : pystr) (d : dict) :
  json_loads (123%N :: t) = Ok (PDict d) -> NoDup (dict_keys d).
Proof.
  unfold json_loads, decode. simpl strip_prefix. simpl skip_ws.
  destruct (scan_once _ recursion_limit (123%N :: t)) as [w rest|e|] eqn:Es;
    try discriminate.
  destruct (skip_ws rest); [|discriminate].
  intros E; inversion E; subst.
  apply scan_once_object_NoDup in Es. assumption.
Qed.

(** X5. The interpreter either returns a dictionary in which no key
    occurs twice, or lets out a failure of the decoder that is not a
    [JSONDecodeError]: the [ValueError] of an integer literal beyond the
    digit limit or the [RecursionError] of nesting beyond the recursion
    limit.  It raises nothing else and returns nothing else. *)
Theorem X5_interpreter_record_or_decoder_limit :
  forall (response_text : pystr),
    (exists d,
       _parse_json_response response_text = Ok (PDict d)
       /\ NoDup (dict_keys d))
    \/ (exists e,
          _parse_json_response response_text = Raise e
          /\ (exn_cls e = OtherError (py "ValueError")
              \/ exn_cls e = OtherError (py "RecursionError"))).
Proof.
  intros response_text.
  destruct (_parse_json_response_cases response_text)
    as [[d Hd]|(e & He & Hj & Hf)].
  - left. exists d. split; [assumption|].
    unfold _parse_json_response in Hd.
    destruct (re_search response_text) as [m|] eqn:E; simpl in Hd.
    + apply re_search_some in E.
      destruct E as (pre & body & post & _ & -> & _).
      destruct (json_loads _) as [v|e] eqn:El; simpl in Hd.
      * inversion Hd; subst. apply json_loads_object_NoDup in El.
        assumption.
      * destruct (is_JSONDecodeError e); inversion Hd; constructor.
    + inversion Hd; constructor.
  - right. exists e. split; [assumption|].
    destruct Hf as [Hc|Hf]; [|assumption].
    unfold is_JSONDecodeError in Hj. rewrite Hc in Hj. discriminate.
Qed.

(** X6. Prose around the payload does not matter: with no opening brace
    before a braced block and no closing brace after it, the interpreter
    returns what it returns for the block alone. *)
Theorem X6_prose_around_payload_is_ignored :
  forall (pre body post : pystr),
    ~ In 123%N pre -> ~ In 125%N post ->
    _parse_json_response (pre ++ (123%N :: body ++ [125%N]) ++ post)
    = _parse_json_response (123%N :: body ++ [125%N]).
Proof.
  intros pre body post Hpre Hpost.
  unfold _parse_json_response.
  rewrite (re_search_block pre body post Hpre Hpost).
  pose proof (re_search_block [] body [] (fun H => H) (fun H => H)) as E.
  simpl in E. rewrite app_nil_r in E. simpl. rewrite E. reflexivity.
Qed.

(** X6 at the example reply. *)
Lemma X6_prose_around_payload_is_ignored_witness :
  _parse_json_response reply_summary_ok
  = _parse_json_response (json_member "summary" (dq "ok")).
Proof.
  apply (X6_prose_around_payload_is_ignored (py "blah blah ")
           (dq "summary" ++ py ": " ++ dq "ok") (py " trailing junk"));
    vm_compute; intuition discriminate.
Defined.

(** ** More on the risk report *)

Lemma select_severity_dicts (label : pystr) (items : list pyval) :
  forallb is_dict items = true ->
  select_severity label items = Ok (filter (has_severity label) items).
Proof.
  induction items as [|r items IH]; simpl; [reflexivity|].
  intros H. apply andb_true_iff in H. destruct H as [Hr Hitems].
  destruct r; try discriminate. simpl.
  rewrite (IH Hitems). simpl. unfold dict_get.
  destruct (dict_lookup entries (py "severity")); reflexivity.
Qed.

Lemma select_severity_first_bad (label : pystr) (items : list pyval)
    (bad : pyval) :
  find (fun r => negb (is_dict r)) items = Some bad ->
  select_severity label items
  = Raise (Exn AttributeError
             (py "'" ++ type_name bad ++ py "' object has no attribute 'get'")).
Proof.
  induction items as [|r items IH]; simpl; [discriminate|].
  destruct r; simpl;
    try (intros E; inversion E; reflexivity).
  intros E. rewrite (IH E). reflexivity.
Qed.

Lemma detect_risks_advanced_from_risks (self : AIProcessor)
    (text language reply : pystr) (d : dict) :
  generate_content self (risk_prompt text language) = Ok reply ->
  _parse_json_response reply = Ok (PDict d) ->
  detect_risks_advanced_try self text language
  = (let risks := dict_get d (py "risks") (PList []) in
     total <- py_len risks ;;
     high <- count_severity risks (py "High") ;;
     medium <- count_severity risks (py "Medium") ;;
     low <- count_severity risks (py "Low") ;;
     Ok (PDict [(py "total_risks", py_int total);
                (py "high_risk_count", py_int high);
                (py "medium_risk_count", py_int medium);
                (py "low_risk_count", py_int low);
                (py "risks", risks);
                (py "language", PStr language)])).
Proof.
  intros Hr Hd. unfold detect_risks_advanced_try.
  rewrite Hr. simpl. rewrite Hd. reflexivity.
Qed.

(** X7. When the decoded reply gives [risks] as a list of objects, the
    report carries that list unchanged and in order, its length as
    [total_risks], the three counts of exact labels, and no [error]. *)
Theorem X7_risk_items_pass_through :
  forall (self : AIProcessor) (text language reply : pystr) (d : dict)
         (items : list pyval),
    generate_content self (risk_prompt text language) = Ok reply ->
    _parse_json_response reply = Ok (PDict d) ->
    dict_get d (py "risks") (PList []) = PList items ->
    forallb is_dict items = true ->
    detect_risks_advanced self text language
    = Ok (PDict [(py "total_risks", py_int (length items));
                 (py "high_risk_count",
                   py_int (count_label (py "High") items));
                 (py "medium_risk_count",
                   py_int (count_label (py "Medium") items));
                 (py "low_risk_count",
                   py_int (count_label (py "Low") items));
                 (py "risks", PList items);
                 (py "language", PStr language)]).
Proof.
  intros self text language reply d items Hr Hd Hrisks Hitems.
  unfold detect_risks_advanced.
  rewrite (detect_risks_advanced_from_risks _ _ _ _ _ Hr Hd).
  cbv zeta. rewrite Hrisks. unfold count_severity. simpl.
  rewrite !select_severity_dicts by assumption. reflexivity.
Qed.

(** X7 at a reply with one high and one low risk. *)
Lemma X7_risk_items_pass_through_witness :
  exists report,
    detect_risks_advanced (replying reply_high_and_low) (py "text")
      (py "English") = Ok (PDict report)
    /\ dict_lookup report (py "total_risks") = Some (PInt 2)
    /\ dict_lookup report (py "high_risk_count") = Some (PInt 1)
    /\ dict_lookup report (py "low_risk_count") = Some (PInt 1).
Proof.
  eexists. split.
  - apply (X7_risk_items_pass_through (replying reply_high_and_low)
             (py "text") (py "English") reply_high_and_low
             [(py "risks",
                PList [PDict [(py "severity", PStr (py "High"))];
                       PDict [(py "severity", PStr (py "Low"))]])]
             [PDict [(py "severity", PStr (py "High"))];
              PDict [(py "severity", PStr (py "Low"))]]);
      reflexivity.
  - repeat split; reflexivity.
Defined.

(** X8. One malformed entry discards the whole report.  If [risks] is a
    list with an item that is not an object, or is null, a boolean or a
    number, the operation returns the degraded record: zero counts, an
    empty risk list, and as [error] the text of the attribute error on
    the first such item, or of the type error of [len]. *)
Theorem X8_malformed_risks_discard_report :
  forall (self : AIProcessor) (text language reply : pystr) (d : dict),
    generate_content self (risk_prompt text language) = Ok reply ->
    _parse_json_response reply = Ok (PDict d) ->
    (forall items bad,
       dict_get d (py "risks") (PList []) = PList items ->
       find (fun r => negb (is_dict r)) items = Some bad ->
       detect_risks_advanced self text language
       = Ok (PDict [(py "total_risks", PInt 0);
                    (py "high_risk_count", PInt 0);
                    (py "medium_risk_count", PInt 0);
                    (py "low_risk_count", PInt 0);
                    (py "risks", PList []);
                    (py "language", PStr language);
                    (py "error",
                      PStr (py "'" ++ type_name bad
                            ++ py "' object has no attribute 'get'"))]))
    /\ (forall risks,
          dict_get d (py "risks") (PList []) = risks ->
          match risks with
          | PNone | PBool _ | PInt _ | PFloat _ => True
          | _ => False
          end ->
          detect_risks_advanced self text language
          = Ok (PDict [(py "total_risks", PInt 0);
                       (py "high_risk_count", PInt 0);
                       (py "medium_risk_count", PInt 0);
                       (py "low_risk_count", PInt 0);
                       (py "risks", PList []);
                       (py "language", PStr language);
                       (py "error",
                         PStr (py "object of type '" ++ type_name risks
                               ++ py "' has no len()"))])).
Proof.
  intros self text language reply d Hr Hd. split.
  - intros items bad Hrisks Hbad.
    unfold detect_risks_advanced.
    rewrite (detect_risks_advanced_from_risks _ _ _ _ _ Hr Hd).
    cbv zeta. rewrite Hrisks. unfold count_severity. simpl.
    rewrite (select_severity_first_bad _ _ _ Hbad). reflexivity.
  - intros risks Hrisks Hkind.
    unfold detect_risks_advanced.
    rewrite (detect_risks_advanced_from_risks _ _ _ _ _ Hr Hd).
    cbv zeta. rewrite Hrisks.
    destruct risks; try contradiction; reflexivity.
Qed.

(** X8 at a risk list whose second item is a string, and at a null. *)
Lemma X8_malformed_risks_discard_report_witness :
  (exists report,
     detect_risks_advanced (replying reply_string_among_risks) (py "text")
       (py "English") = Ok (PDict report)
     /\ dict_lookup report (py "total_risks") = Some (PInt 0)
     /\ dict_lookup report (py "error")
        = Some (PStr (py "'str' object has no attribute 'get'")))
  /\ (exists report,
        detect_risks_advanced (replying (json_member "risks" (py "null")))
          (py "text") (py "English") = Ok (PDict report)
        /\ dict_lookup report (py "error")
           = Some (PStr (py "object of type 'NoneType' has no len()"))).
Proof.
  split.
  - destruct (X8_malformed_risks_discard_report
                (replying reply_string_among_risks)
                (py "text") (py "English") reply_string_among_risks
                [(py "risks",
                   PList [PDict [(py "severity", PStr (py "High"))];
                          PStr (py "late fee")])]
                eq_refl eq_refl) as (Hitem & _).
    eexists. split.
    + apply (Hitem [PDict [(py "severity", PStr (py "High"))];
                    PStr (py "late fee")] (PStr (py "late fee")));
        reflexivity.
    + split; reflexivity.
  - destruct (X8_malformed_risks_discard_report
                (replying (json_member "risks" (py "null")))
                (py "text") (py "English")
                (json_member "risks" (py "null"))
                [(py "risks", PNone)] eq_refl eq_refl) as (_ & Hlen).
    eexists. split.
    + apply (Hlen PNone); [reflexivity | exact I].
    + reflexivity.
Defined.

(** X9. The report depends on the decoded reply through its [risks]
    entry alone: two replies with the same [risks] give the same report,
    whatever counts or other fields they claim and whatever the document
    text was. *)
Theorem X9_report_depends_on_risks_only :
  forall (self1 self2 : AIProcessor)
         (text1 text2 language reply1 reply2 : pystr) (d1 d2 : dict),
    generate_content self1 (risk_prompt text1 language) = Ok reply1 ->
    _parse_json_response reply1 = Ok (PDict d1) ->
    generate_content self2 (risk_prompt text2 language) = Ok reply2 ->
    _parse_json_response reply2 = Ok (PDict d2) ->
    dict_get d1 (py "risks") (PList []) = dict_get d2 (py "risks") (PList []) ->
    detect_risks_advanced self1 text1 language
    = detect_risks_advanced self2 text2 language.
Proof.
  intros self1 self2 text1 text2 language reply1 reply2 d1 d2
    Hr1 Hd1 Hr2 Hd2 E.
  unfold detect_risks_advanced.
  rewrite (detect_risks_advanced_from_risks _ _ _ _ _ Hr1 Hd1).
  rewrite (detect_risks_advanced_from_risks _ _ _ _ _ Hr2 Hd2).
  rewrite E. reflexivity.
Qed.

(** X9 at a reply that claims ninety-nine risks and lists none, against
    a reply that holds no payload. *)
Lemma X9_report_depends_on_risks_only_witness :
  detect_risks_advanced
    (replying (json_member "total_risks" (py "99"))) (py "one")
    (py "English")
  = detect_risks_advanced (replying (py "nothing found")) (py "two")
      (py "English").
Proof.
  apply (X9_report_depends_on_risks_only
           (replying (json_member "total_risks" (py "99")))
           (replying (py "nothing found"))
           (py "one") (py "two") (py "English")
           (json_member "total_risks" (py "99")) (py "nothing found")
           [(py "total_risks", PInt 99)] []);
    reflexivity.
Defined.

(** ** More on the safety recommendation *)

(** X10. A risk report that is not a dictionary is never looked into
    further: whatever it is (absent, a list, a string, a number), the
    operation returns the degraded record whose recommendation names the
    type that has no [get], for every model and every document text. *)
Theorem X10_non_dict_report_degrades :
  forall `{Builtins} (self : AIProcessor) (text language : pystr)
         (risks : pyval),
    is_dict risks = false ->
    get_safety_recommendation self text risks language
    = Ok (PDict [(py "safety_level", PStr (py "WARNING"));
                 (py "recommendation",
                   PStr (py "Unable to analyze safety: "
                         ++ py "'" ++ type_name risks
                         ++ py "' object has no attribute 'get'"));
                 (py "reasons", PList [PStr (py "Analysis error occurred")]);
                 (py "suggestions",
                   PList [PStr (py "Please review the document manually")]);
                 (py "language", PStr language)]).
Proof.
  intros B self text language risks Hr.
  destruct risks; try discriminate; reflexivity.
Qed.

(** X10 at a report that is a bare list of risks. *)
Lemma X10_non_dict_report_degrades_witness :
  exists d,
    get_safety_recommendation (H := empty_report_builtins)
      (replying (json_member "safety_level" (dq "SAFE"))) (py "text")
      (PList [PDict [(py "severity", PStr (py "High"))]]) (py "English")
    = Ok (PDict d)
    /\ dict_lookup d (py "recommendation")
       = Some (PStr (py "Unable to analyze safety: "
                     ++ py "'list' object has no attribute 'get'")).
Proof.
  eexists. split.
  - apply (X10_non_dict_report_degrades (H := empty_report_builtins)).
    reflexivity.
  - reflexivity.
Defined.

(** X11. The two stages compose: whatever [detect_risks_advanced]
    returns is a dictionary, so the safety prompt built from it fails
    only if [json.dumps] fails on its [risks], and otherwise renders. *)
Theorem X11_report_feeds_safety_prompt :
  forall `{Builtins} (self : AIProcessor) (text language : pystr)
         (report : pyval),
    detect_risks_advanced self text language = Ok report ->
    exists d risks,
      report = PDict d
      /\ dict_lookup d (py "risks") = Some risks
      /\ (forall e,
            safety_prompt report language = Raise e ->
            json_dumps risks = Raise e)
      /\ (forall dumped,
            json_dumps risks = Ok dumped ->
            exists prompt, safety_prompt report language = Ok prompt).
Proof.
  intros B self text language report Hrep.
  assert (Hd : exists d, report = PDict d
                         /\ dict_contains d (py "risks") = true).
  { unfold detect_risks_advanced in Hrep.
    rewrite try_except_Exception in Hrep.
    destruct (detect_risks_advanced_try self text language) as [r|e] eqn:E.
    - destruct (detect_risks_advanced_keys _ _ _ _ E) as (d & -> & Hk).
      inversion Hrep; subst. exists d. split; [reflexivity|].
      apply dict_contains_In. rewrite Hk. vm_compute. tauto.
    - inversion Hrep; subst. eexists; split; reflexivity. }
  destruct Hd as (d & -> & Hc).
  unfold dict_contains in Hc.
  destruct (dict_lookup d (py "risks")) as [risks|] eqn:Hrisks;
    [|discriminate].
  exists d, risks. repeat split; auto.
  - intros e. unfold safety_prompt. cbn [py_get bind].
    unfold dict_get. rewrite Hrisks.
    destruct (json_dumps risks); cbn [bind]; congruence.
  - intros dumped Hdump. unfold safety_prompt. cbn [py_get bind].
    unfold dict_get. rewrite Hrisks, Hdump. cbn [bind]. eauto.
Qed.

(** X11 at the report of a failed risk detection. *)
Lemma X11_report_feeds_safety_prompt_witness :
  exists d prompt,
    detect_risks_advanced (failing (Exn (OtherError (py "Unavailable")) []))
      (py "text") (py "English") = Ok (PDict d)
    /\ safety_prompt (H := empty_report_builtins) (PDict d) (py "English")
       = Ok prompt.
Proof.
  destruct (X11_report_feeds_safety_prompt (H := empty_report_builtins)
              (failing (Exn (OtherError (py "Unavailable")) []))
              (py "text") (py "English") _ eq_refl)
    as (d & risks & Hd & _ & _ & Hok).
  destruct (Hok (py "[]") eq_refl) as (prompt & Hp).
  exists d, prompt. split; [|rewrite <- Hd; exact Hp].
  rewrite <- Hd. reflexivity.
Defined.

(** ** The document parser *)

Lemma pdf_text_content_joined (pages : list pystr) :
  pdf_text_content pages = joined_with [10%N; 10%N] pages.
Proof.
  unfold pdf_text_content, joined_with.
  assert (G : forall acc,
            fold_left (fun t p => (t ++ p) ++ [10%N; 10%N]) pages acc
            = acc ++ concat (map (fun p => p ++ [10%N; 10%N]) pages)).
  { induction pages as [|p pages IH]; intros acc; simpl.
    - rewrite app_nil_r. reflexivity.
    - rewrite IH, <- !app_assoc. reflexivity. }
  apply (G []).
Qed.

Lemma docx_loop_joined (paragraphs : list pystr) :
  docx_loop paragraphs
  = (joined_with [10%N] (filter (fun p => negb (is_blank p)) paragraphs),
     length (filter (fun p => negb (is_blank p)) paragraphs)).
Proof.
  unfold docx_loop, joined_with.
  set (step := fun (state : pystr * nat) paragraph =>
                 let (text_content, paragraph_count) := state in
                 match strip paragraph with
                 | [] => state
                 | _ :: _ =>
                     (text_content ++ paragraph ++ [10%N], paragraph_count + 1)
                 end).
  assert (G : forall text count,
            fold_left step paragraphs (text, count)
            = (text ++ concat (map (fun p => p ++ [10%N])
                                 (filter (fun p => negb (is_blank p))
                                    paragraphs)),
               count + length (filter (fun p => negb (is_blank p))
                                 paragraphs))).
  { induction paragraphs as [|p paragraphs IH]; intros text count.
    - simpl. rewrite app_nil_r, Nat.add_0_r. reflexivity.
    - assert (Hs : step (text, count) p
                   = if is_blank p then (text, count)
                     else (text ++ p ++ [10%N], count + 1)).
      { unfold step, is_blank. destruct (strip p); reflexivity. }
      cbn [fold_left filter]. rewrite Hs.
      destruct (is_blank p); cbn [negb map concat length]; rewrite IH.
      + reflexivity.
      + f_equal; [rewrite <- !app_assoc; reflexivity | lia]. }
  apply (G [] 0).
Qed.

(** The words of parts joined by white space are the words of the
    parts. *)
Lemma split_ws_joined (sep : pystr) (parts : list pystr) :
  sep <> [] -> forallb is_space sep = true ->
  split_ws (joined_with sep parts) = concat (map split_ws parts).
Proof.
  intros Hne Hsp. unfold joined_with.
  induction parts as [|p parts IH]; simpl; [reflexivity|].
  destruct sep as [|c sep]; [contradiction|].
  simpl in Hsp. apply andb_true_iff in Hsp. destruct Hsp as [Hc Hsep].
  rewrite <- app_assoc. simpl.
  unfold split_ws at 1. rewrite split_ws_from_app by assumption.
  rewrite split_ws_leading by assumption. rewrite IH. reflexivity.
Qed.

Lemma length_concat_sum {A : Type} (l : list (list A)) :
  length (concat l) = list_sum (map (@length A) l).
Proof.
  induction l as [|x l IH]; simpl; [reflexivity|].
  rewrite length_app, IH. reflexivity.
Qed.

Lemma stripped_empty_iff_no_word (s : pystr) :
  strip s = [] <-> split_ws s = [].
Proof.
  split; [apply split_ws_blank|].
  intros H. destruct (strip s) eqn:E; [reflexivity|].
  exfalso. apply (split_ws_nonblank s); [rewrite E; discriminate | exact H].
Qed.

(** X12. For a PDF whose pages are read, the record has the number of
    pages as [page_count]; its [text] neither begins nor ends with white
    space; its [word_count] is the number of words of that [text], which
    is the sum of the pages' word counts; and the text is empty exactly
    when the word count is zero. *)
Theorem X12_pdf_record :
  forall `{Readers} (self : DocumentParser) (file_content : bytes)
         (pages : list pystr),
    pdf_page_texts file_content = Ok pages ->
    exists text,
      _extract_from_pdf self file_content
      = Ok (PDict [(py "text", PStr text);
                   (py "page_count", py_int (length pages));
                   (py "format", PStr (py "PDF"));
                   (py "word_count", py_int (length (split_ws text)))])
      /\ text = strip (joined_with [10%N; 10%N] pages)
      /\ is_stripped text
      /\ length (split_ws text)
         = list_sum (map (fun page => length (split_ws page)) pages)
      /\ (text = [] <-> length (split_ws text) = 0).
Proof.
  intros R self file_content pages Hp.
  exists (strip (joined_with [10%N; 10%N] pages)).
  split; [|split; [reflexivity|split; [apply strip_is_stripped|split]]].
  - unfold _extract_from_pdf. rewrite Hp. simpl.
    rewrite pdf_text_content_joined, split_ws_strip. reflexivity.
  - rewrite split_ws_strip, split_ws_joined by (discriminate || reflexivity).
    rewrite length_concat_sum, map_map. reflexivity.
  - rewrite length_zero_iff_nil, split_ws_strip.
    apply stripped_empty_iff_no_word.
Qed.

(** X12 at a document of two pages, the second one empty. *)
Lemma X12_pdf_record_witness :
  _extract_from_pdf (H := readers_of [py "Late fee: 5% "; []] [])
    DocumentParser_init []
  = Ok (PDict [(py "text", PStr (py "Late fee: 5%"));
               (py "page_count", PInt 2);
               (py "format", PStr (py "PDF"));
               (py "word_count", PInt 3)]).
Proof.
  destruct (X12_pdf_record (H := readers_of [py "Late fee: 5% "; []] [])
              DocumentParser_init [] [py "Late fee: 5% "; []] eq_refl)
    as (text & Hrec & -> & _).
  exact Hrec.
Defined.

(** X13. For a DOCX whose paragraphs are read, [paragraph_count] is the
    number of paragraphs that are not blank, the [text] is those
    paragraphs, one per line, stripped, and [word_count] is the number of
    words of that text.  There are at least as many words as counted
    paragraphs, and the text is empty exactly when no paragraph was
    counted. *)
Theorem X13_docx_record :
  forall `{Readers} (self : DocumentParser) (file_content : bytes)
         (paragraphs : list pystr),
    docx_paragraph_texts file_content = Ok paragraphs ->
    exists text kept,
      _extract_from_docx self file_content
      = Ok (PDict [(py "text", PStr text);
                   (py "paragraph_count", py_int (length kept));
                   (py "format", PStr (py "DOCX"));
                   (py "word_count", py_int (length (split_ws text)))])
      /\ kept = filter (fun p => negb (is_blank p)) paragraphs
      /\ text = strip (joined_with [10%N] kept)
      /\ is_stripped text
      /\ length kept <= length (split_ws text)
      /\ (text = [] <-> length kept = 0).
Proof.
  intros R self file_content paragraphs Hp.
  set (kept := filter (fun p => negb (is_blank p)) paragraphs).
  assert (Hwords : length kept <= length (split_ws (joined_with [10%N] kept))).
  { rewrite split_ws_joined by (discriminate || reflexivity).
    rewrite length_concat_sum, map_map.
    assert (Hk : Forall (fun p => is_blank p = false) kept).
    { apply Forall_forall. intros p Hin. apply filter_In in Hin.
      destruct Hin as [_ Hb]. apply negb_true_iff. exact Hb. }
    clearbody kept. induction Hk as [|p ps Hb _ IH]; simpl; [lia|].
    assert (split_ws p <> []).
    { apply split_ws_nonblank. unfold is_blank in Hb.
      destruct (strip p); [discriminate | discriminate]. }
    destruct (split_ws p); [contradiction | simpl; lia]. }
  exists (strip (joined_with [10%N] kept)), kept.
  split; [|split; [reflexivity|split; [reflexivity|
           split; [apply strip_is_stripped|split]]]].
  - unfold _extract_from_docx. rewrite Hp. simpl.
    rewrite docx_loop_joined. fold kept.
    rewrite split_ws_strip. reflexivity.
  - rewrite split_ws_strip. exact Hwords.
  - rewrite stripped_empty_iff_no_word. split.
    + intros E. rewrite E in Hwords. simpl in Hwords. lia.
    + intros E. apply length_zero_iff_nil in E. rewrite E. reflexivity.
Qed.

(** X13 at three paragraphs, the middle one of spaces only. *)
Lemma X13_docx_record_witness :
  _extract_from_docx
    (H := readers_of [] [py "Payment terms"; py "   "; py "Fees apply."])
    DocumentParser_init []
  = Ok (PDict [(py "text",
                 PStr (py "Payment terms" ++ [10%N] ++ py "Fees apply."));
               (py "paragraph_count", PInt 2);
               (py "format", PStr (py "DOCX"));
               (py "word_count", PInt 4)]).
Proof.
  destruct (X13_docx_record
              (H := readers_of []
                      [py "Payment terms"; py "   "; py "Fees apply."])
              DocumentParser_init []
              [py "Payment terms"; py "   "; py "Fees apply."] eq_refl)
    as (text & kept & Hrec & -> & -> & _).
  exact Hrec.
Defined.

(** X14. Blank paragraphs never change the result: a DOCX and the same
    DOCX without its blank paragraphs give the same record. *)
Theorem X14_blank_paragraphs_are_ignored :
  forall `{Readers} (self : DocumentParser) (content1 content2 : bytes)
         (paragraphs : list pystr),
    docx_paragraph_texts content1 = Ok paragraphs ->
    docx_paragraph_texts content2
    = Ok (filter (fun p => negb (is_blank p)) paragraphs) ->
    _extract_from_docx self content1 = _extract_from_docx self content2.
Proof.
  intros R self content1 content2 paragraphs H1 H2.
  unfold _extract_from_docx. rewrite H1, H2. simpl.
  rewrite !docx_loop_joined.
  assert (E : forall l : list pystr,
            filter (fun p => negb (is_blank p))
              (filter (fun p => negb (is_blank p)) l)
            = filter (fun p => negb (is_blank p)) l).
  { induction l as [|p l IH]; simpl; [reflexivity|].
    destruct (negb (is_blank p)) eqn:Ep; simpl; rewrite ?Ep, IH;
      reflexivity. }
  rewrite E. reflexivity.
Qed.

(** X14 at a document with a blank paragraph and the same document
    without it. *)
Lemma X14_blank_paragraphs_are_ignored_witness :
  _extract_from_docx
    (H := two_document_readers [py "Fees"; py " "; py "Terms"]
            [py "Fees"; py "Terms"])
    DocumentParser_init []
  = _extract_from_docx
      (H := two_document_readers [py "Fees"; py " "; py "Terms"]
              [py "Fees"; py "Terms"])
      DocumentParser_init [Byte.x00].
Proof.
  apply (X14_blank_paragraphs_are_ignored
           (H := two_document_readers [py "Fees"; py " "; py "Terms"]
                   [py "Fees"; py "Terms"])
           DocumentParser_init [] [Byte.x00]
           [py "Fees"; py " "; py "Terms"]); reflexivity.
Defined.

(** *** File names *)

Lemma split_on_no_sep (sep : N) (s : pystr) :
  ~ In sep s -> split_on sep s = [s].
Proof.
  induction s as [|c s IH]; simpl; [reflexivity|].
  intros H. destruct (N.eqb_spec c sep); [subst; tauto|].
  rewrite IH by tauto. reflexivity.
Qed.

Lemma split_on_nonempty (sep : N) (s : pystr) : split_on sep s <> [].
Proof.
  destruct s as [|c s]; simpl; [discriminate|].
  destruct (c =? sep)%N; [discriminate|].
  destruct (split_on sep s); discriminate.
Qed.

(** Splitting at a separator: the parts before it, then the parts after
    it. *)
Lemma split_on_app (sep : N) (a b : pystr) :
  split_on sep (a ++ sep :: b) = split_on sep a ++ split_on sep b.
Proof.
  induction a as [|c a IH]; simpl.
  - rewrite N.eqb_refl. reflexivity.
  - rewrite IH. destruct (c =? sep)%N; [reflexivity|].
    pose proof (split_on_nonempty sep a) as Hne.
    destruct (split_on sep a); [contradiction | reflexivity].
Qed.

(** The last part of a split is what follows the last separator. *)
Lemma split_on_last (sep : N) (head tail : pystr) :
  ~ In sep tail -> last_part (split_on sep (head ++ sep :: tail)) = tail.
Proof.
  intros H. unfold last_part.
  rewrite split_on_app, (split_on_no_sep sep tail H).
  apply last_last.
Qed.

Lemma rsplit_once_no_sep (sep : N) (s : pystr) :
  ~ In sep s -> rsplit_once sep s = [s].
Proof.
  induction s as [|c s IH]; simpl; [reflexivity|].
  intros H. rewrite IH by tauto.
  destruct (N.eqb_spec c sep); [subst; tauto | reflexivity].
Qed.

Lemma rsplit_once_last (sep : N) (head tail : pystr) :
  ~ In sep tail -> rsplit_once sep (head ++ sep :: tail) = [head; tail].
Proof.
  intros H. induction head as [|c head IH]; simpl.
  - rewrite rsplit_once_no_sep, N.eqb_refl by assumption. reflexivity.
  - rewrite IH. reflexivity.
Qed.

(** A text with a separator splits at its last one. *)
Lemma last_sep_decompose (sep : N) (s : pystr) :
  In sep s -> exists head tail, s = head ++ sep :: tail /\ ~ In sep tail.
Proof.
  induction s as [|c s IH]; simpl; [tauto|].
  intros H. destruct (in_dec N.eq_dec sep s) as [Hin|Hnot].
  - destruct (IH Hin) as (head & tail & -> & Ht).
    exists (c :: head), tail. auto.
  - destruct H as [->|]; [|contradiction].
    exists [], s. auto.
Qed.

Lemma ascii_lower_dot (c : N) : (ascii_lower c =? 46)%N = (c =? 46)%N.
Proof.
  unfold ascii_lower.
  destruct ((65 <=? c) && (c <=? 90))%N eqn:E; [|reflexivity].
  apply andb_true_iff in E. destruct E as [E1 E2].
  apply N.leb_le in E1, E2.
  destruct (N.eqb_spec (c + 32) 46), (N.eqb_spec c 46); try reflexivity; lia.
Qed.

Lemma ascii_lower_no_dot (s : pystr) :
  ~ In 46%N s -> ~ In 46%N (map ascii_lower s).
Proof.
  intros H Hin. apply in_map_iff in Hin. destruct Hin as (c & E & Hc).
  apply N.eqb_eq in E. rewrite ascii_lower_dot in E. apply N.eqb_eq in E.
  subst. contradiction.
Qed.

Lemma lower_ascii `{CaseMapping} (s : pystr) :
  forallb is_ascii s = true -> lower s = map ascii_lower s.
Proof. intros E. unfold lower. rewrite E. reflexivity. Qed.

Lemma file_extension_of_ascii `{CaseMapping} (filename : pystr) :
  forallb is_ascii filename = true ->
  (forall stem ext,
     filename = stem ++ 46%N :: ext -> ~ In 46%N ext ->
     file_extension_of filename = map ascii_lower ext)
  /\ (~ In 46%N filename ->
      file_extension_of filename = map ascii_lower filename).
Proof.
  intros Ha. unfold file_extension_of.
  rewrite (lower_ascii _ Ha). split.
  - intros stem ext -> Hext.
    rewrite map_app. simpl. change (ascii_lower 46) with 46%N.
    apply split_on_last. apply ascii_lower_no_dot. assumption.
  - intros Hno. rewrite split_on_no_sep; [reflexivity|].
    apply ascii_lower_no_dot. assumption.
Qed.

(** X15. For a file name of ASCII characters, the extension the parser
    looks at is what follows the last dot, in small letters, and the
    whole name in small letters when it has no dot. *)
Theorem X15_extension_is_after_last_dot :
  forall `{CaseMapping} (filename : pystr),
    forallb is_ascii filename = true ->
    (forall stem ext,
       filename = stem ++ 46%N :: ext -> ~ In 46%N ext ->
       file_extension_of filename = map ascii_lower ext)
    /\ (~ In 46%N filename ->
        file_extension_of filename = map ascii_lower filename).
Proof.
  intros CM filename Ha. apply file_extension_of_ascii. assumption.
Qed.

(** X15 at a name with two dots and capital letters. *)
Lemma X15_extension_is_after_last_dot_witness :
  file_extension_of (H := ascii_only_case_mapping) (py "Lease.v2.PDF")
  = py "pdf".
Proof.
  destruct (X15_extension_is_after_last_dot (H := ascii_only_case_mapping)
              (py "Lease.v2.PDF") eq_refl) as (Hdot & _).
  apply (Hdot (py "Lease.v2") (py "PDF")).
  - reflexivity.
  - vm_compute. intuition discriminate.
Defined.

Lemma supported_extension (ext : pystr) :
  existsb (str_eqb (py "." ++ ext)) (supported_formats DocumentParser_init)
  = str_eqb ext (py "pdf") || str_eqb ext (py "docx").
Proof.
  simpl. rewrite orb_false_r.
  destruct ext as [|a [|b [|c [|d [|e ext]]]]]; reflexivity.
Qed.

(** X16. The freshly built parser accepts a file exactly when its
    extension is [pdf] or [docx] and its size is at most 10485760 bytes;
    [extract_text] reads every name whose extension is accepted and
    raises a [ValueError] naming the extension for every other name,
    without looking at the content. *)
Theorem X16_validate_and_extract_agree :
  forall `{CaseMapping} `{Readers} (self : DocumentParser)
         (file_content : bytes) (filename : pystr) (file_size : Z),
    (validate_file DocumentParser_init filename file_size = true
     <-> (file_size <= 10485760)%Z
         /\ (file_extension_of filename = py "pdf"
             \/ file_extension_of filename = py "docx"))
    /\ (validate_file DocumentParser_init filename file_size = true ->
        extract_text self file_content filename
        = _extract_from_pdf self file_content
        \/ extract_text self file_content filename
           = _extract_from_docx self file_content)
    /\ (validate_file DocumentParser_init filename file_size = false ->
        (file_size <= 10485760)%Z ->
        extract_text self file_content filename
        = Raise (value_error (py "Unsupported file format: "
                              ++ file_extension_of filename))).
Proof.
  intros CM R self file_content filename file_size.
  assert (Hv : validate_file DocumentParser_init filename file_size
               = (str_eqb (file_extension_of filename) (py "pdf")
                  || str_eqb (file_extension_of filename) (py "docx"))
                 && (file_size <=? 10485760)%Z).
  { unfold validate_file. cbv zeta. rewrite supported_extension.
    change (10 * 1024 * 1024)%Z with 10485760%Z.
    rewrite Z.gtb_ltb, Z.ltb_antisym.
    destruct (_ || _); simpl; [|reflexivity].
    destruct (file_size <=? 10485760)%Z; reflexivity. }
  rewrite Hv. unfold extract_text. cbv zeta.
  rewrite andb_true_iff, andb_false_iff, !Z.leb_le, Z.leb_gt.
  destruct (str_eqb (file_extension_of filename) (py "pdf")) eqn:Ep;
    [|destruct (str_eqb (file_extension_of filename) (py "docx")) eqn:Ed];
    simpl.
  - apply str_eqb_eq in Ep. split; [tauto|]. split; [tauto|].
    intros [Hf|Hs] Hle; [discriminate | lia].
  - apply str_eqb_eq in Ed. split; [tauto|]. split; [tauto|].
    intros [Hf|Hs] Hle; [discriminate | lia].
  - assert (Hp : file_extension_of filename <> py "pdf")
      by (intros E; apply str_eqb_eq in E; congruence).
    assert (Hd : file_extension_of filename <> py "docx")
      by (intros E; apply str_eqb_eq in E; congruence).
    split; [|split; [intros [Hf _]; discriminate | reflexivity]].
    split; [intros [Hf _]; discriminate | tauto].
Qed.

(** X16 at a spreadsheet of one kilobyte. *)
Lemma X16_validate_and_extract_agree_witness :
  extract_text (H := ascii_only_case_mapping) (H0 := readers_of [] [])
    DocumentParser_init [] (py "fees.xlsx")
  = Raise (value_error (py "Unsupported file format: xlsx")).
Proof.
  destruct (X16_validate_and_extract_agree (H := ascii_only_case_mapping)
              (H0 := readers_of [] []) DocumentParser_init []
              (py "fees.xlsx") 1024) as (_ & _ & Hbad).
  apply Hbad; [reflexivity | vm_compute; discriminate].
Defined.

(** X17. For a file name of ASCII characters, [allowed_file] of the web
    layer holds exactly when the name has a dot and the parser's
    extension is [pdf] or [docx]: it agrees with the parser on every
    name with a dot and refuses every name without one. *)
Theorem X17_allowed_file_needs_a_dot :
  forall `{CaseMapping} (filename : pystr),
    forallb is_ascii filename = true ->
    (allowed_file filename = true
     <-> In 46%N filename
         /\ (file_extension_of filename = py "pdf"
             \/ file_extension_of filename = py "docx")).
Proof.
  intros CM filename Ha. unfold allowed_file.
  destruct (existsb (N.eqb 46) filename) eqn:Edot.
  - apply existsb_exists in Edot. destruct Edot as (c & Hin & Hc).
    apply N.eqb_eq in Hc. subst c.
    destruct (last_sep_decompose 46%N filename Hin)
      as (stem & ext & E & Hext).
    destruct (file_extension_of_ascii filename Ha) as (Hdot & _).
    rewrite (Hdot stem ext E Hext).
    subst filename. rewrite rsplit_once_last by assumption. simpl nth_error.
    rewrite forallb_app in Ha. apply andb_true_iff in Ha.
    destruct Ha as [_ Ha]. simpl in Ha. rewrite (lower_ascii _ Ha).
    unfold ALLOWED_EXTENSIONS. simpl existsb.
    rewrite orb_false_r, orb_true_iff, !str_eqb_eq. tauto.
  - split; [discriminate|]. intros [Hin _]. exfalso.
    assert (existsb (N.eqb 46) filename = true).
    { apply existsb_exists. exists 46%N. split; [assumption | reflexivity]. }
    congruence.
Qed.

(** X17 at a name that is an extension and nothing else: the parser
    reads it, the web layer refuses it. *)
Lemma X17_allowed_file_needs_a_dot_witness :
  allowed_file (H := ascii_only_case_mapping) (py "pdf") = false
  /\ validate_file (H := ascii_only_case_mapping) DocumentParser_init
       (py "pdf") 1024 = true.
Proof.
  split; [|reflexivity].
  destruct (allowed_file (H := ascii_only_case_mapping) (py "pdf")) eqn:E;
    [|reflexivity].
  apply (X17_allowed_file_needs_a_dot (H := ascii_only_case_mapping)
           (py "pdf") eq_refl) in E.
  destruct E as [Hin _]. vm_compute in Hin. intuition discriminate.
Defined.

(** X18. The parser reports a reader's failure by raising: whatever the
    reader raised comes out of [extract_text] as a plain [Exception]
    whose text is [Error parsing PDF: ] or [Error parsing DOCX: ]
    followed by the text of the original. *)
Theorem X18_reader_failures_are_reraised :
  forall `{CaseMapping} `{Readers} (self : DocumentParser)
         (file_content : bytes) (filename : pystr) (e : exn),
    (file_extension_of filename = py "pdf" ->
     pdf_page_texts file_content = Raise e ->
     extract_text self file_content filename
     = Raise (plain_exception (py "Error parsing PDF: " ++ exn_msg e)))
    /\ (file_extension_of filename = py "docx" ->
        docx_paragraph_texts file_content = Raise e ->
        extract_text self file_content filename
        = Raise (plain_exception (py "Error parsing DOCX: " ++ exn_msg e))).
Proof.
  intros CM R self file_content filename e.
  unfold extract_text. cbv zeta. split; intros -> He.
  - simpl. unfold _extract_from_pdf. rewrite He. reflexivity.
  - simpl. unfold _extract_from_docx. rewrite He. reflexivity.
Qed.

(** X18 at a PDF the reader cannot open. *)
Lemma X18_reader_failures_are_reraised_witness :
  extract_text (H := ascii_only_case_mapping)
    (H0 := failing_readers (Exn (OtherError (py "FileDataError"))
                              (py "cannot open broken document")))
    DocumentParser_init [] (py "lease.pdf")
  = Raise (plain_exception
             (py "Error parsing PDF: cannot open broken document")).
Proof.
  destruct (X18_reader_failures_are_reraised
              (H := ascii_only_case_mapping)
              (H0 := failing_readers
                       (Exn (OtherError (py "FileDataError"))
                          (py "cannot open broken document")))
              DocumentParser_init [] (py "lease.pdf")
              (Exn (OtherError (py "FileDataError"))
                 (py "cannot open broken document"))) as (Hpdf & _).
  apply Hpdf; reflexivity.
Defined.

(** ** Failure as data *)

Lemma detect_risks_advanced_len_failure (self : AIProcessor)
    (text language reply : pystr) (d : dict) (e : exn) :
  generate_content self (risk_prompt text language) = Ok reply ->
  _parse_json_response reply = Ok (PDict d) ->
  py_len (dict_get d (py "risks") (PList [])) = Raise e ->
  detect_risks_advanced_try self text language = Raise e.
Proof.
  intros Hr Hd Hl.
  rewrite (detect_risks_advanced_from_risks _ _ _ _ _ Hr Hd).
  cbv zeta. rewrite Hl. reflexivity.
Qed.

Lemma detect_risks_advanced_item_failure (self : AIProcessor)
    (text language reply : pystr) (d : dict) (items : list pyval)
    (bad : pyval) :
  generate_content self (risk_prompt text language) = Ok reply ->
  _parse_json_response reply = Ok (PDict d) ->
  dict_get d (py "risks") (PList []) = PList items ->
  find (fun r => negb (is_dict r)) items = Some bad ->
  detect_risks_advanced_try self text language
  = Raise (Exn AttributeError
             (py "'" ++ type_name bad ++ py "' object has no attribute 'get'")).
Proof.
  intros Hr Hd Hrisks Hbad.
  rewrite (detect_risks_advanced_from_risks _ _ _ _ _ Hr Hd).
  cbv zeta. rewrite Hrisks. unfold count_severity. simpl.
  rewrite (select_severity_first_bad _ _ _ Hbad). reflexivity.
Qed.

(** C10. The record of [detect_risks_advanced] has the key [error]
    exactly when the body of the operation raised, and the body raises
    when the model invocation fails, when the interpreter lets a failure
    out, when [len] fails on the risks and when an item of the risks has
    no [get]: in each case the record is the degraded one with the text
    of the exception under [error].  A reply that decodes to nothing
    gives the plain report of zero risks, without that key.  The record
    of [summarize_document] has the same five keys on both paths, and on
    failure its [summary] holds the error text. *)
Theorem C10_error_key_only_on_failure :
  forall (self : AIProcessor) (text language : pystr),
    (exists report,
       detect_risks_advanced self text language = Ok (PDict report)
       /\ (dict_contains report (py "error") = true
           <-> exists e,
                 detect_risks_advanced_try self text language = Raise e))
    /\ (forall reply,
          generate_content self (risk_prompt text language) = Ok reply ->
          _parse_json_response reply = Ok (PDict []) ->
          detect_risks_advanced self text language
          = Ok (PDict [(py "total_risks", PInt 0);
                       (py "high_risk_count", PInt 0);
                       (py "medium_risk_count", PInt 0);
                       (py "low_risk_count", PInt 0);
                       (py "risks", PList []);
                       (py "language", PStr language)]))
    /\ (exists d,
          summarize_document self text language = Ok (PDict d)
          /\ dict_keys d = summary_keys
          /\ forall e,
               summarize_document_try self text language = Raise e ->
               dict_lookup d (py "summary")
               = Some (PStr (py "Error generating summary: " ++ exn_msg e)))
    /\ (forall e,
          generate_content self (risk_prompt text language) = Raise e
          \/ (exists reply,
                generate_content self (risk_prompt text language) = Ok reply
                /\ (_parse_json_response reply = Raise e
                    \/ exists d,
                         _parse_json_response reply = Ok (PDict d)
                         /\ py_len (dict_get d (py "risks") (PList []))
                            = Raise e)) ->
          detect_risks_advanced self text language
          = Ok (PDict [(py "total_risks", PInt 0);
                       (py "high_risk_count", PInt 0);
                       (py "medium_risk_count", PInt 0);
                       (py "low_risk_count", PInt 0);
                       (py "risks", PList []);
                       (py "language", PStr language);
                       (py "error", PStr (exn_msg e))]))
    /\ (forall reply d items bad,
          generate_content self (risk_prompt text language) = Ok reply ->
          _parse_json_response reply = Ok (PDict d) ->
          dict_get d (py "risks") (PList []) = PList items ->
          find (fun r => negb (is_dict r)) items = Some bad ->
          detect_risks_advanced self text language
          = Ok (PDict [(py "total_risks", PInt 0);
                       (py "high_risk_count", PInt 0);
                       (py "medium_risk_count", PInt 0);
                       (py "low_risk_count", PInt 0);
                       (py "risks", PList []);
                       (py "language", PStr language);
                       (py "error",
                         PStr (py "'" ++ type_name bad
                               ++ py "' object has no attribute 'get'"))]))
    /\ (forall e,
          generate_content self (summarize_prompt text language) = Raise e
          \/ (exists reply,
                generate_content self (summarize_prompt text language)
                = Ok reply
                /\ _parse_json_response reply = Raise e) ->
          summarize_document self text language
          = Ok (PDict [(py "summary",
                         PStr (py "Error generating summary: " ++ exn_msg e));
                       (py "key_points", PList []);
                       (py "important_dates", PList []);
                       (py "parties", PList []);
                       (py "language", PStr language)])).
Proof.
  intros self text language. repeat apply conj.
  - unfold detect_risks_advanced. rewrite try_except_Exception.
    destruct (detect_risks_advanced_try self text language) as [r|e] eqn:E.
    + destruct (detect_risks_advanced_keys _ _ _ _ E) as (d & -> & Hk).
      exists d. split; [reflexivity|].
      rewrite dict_contains_In, Hk. split.
      * vm_compute. intuition discriminate.
      * intros [e He]; discriminate.
    + eexists. split; [reflexivity|]. split; eauto.
  - intros reply Hr Hd.
    unfold detect_risks_advanced, detect_risks_advanced_try.
    rewrite Hr. simpl. rewrite Hd. reflexivity.
  - unfold summarize_document. rewrite try_except_Exception.
    destruct (summarize_document_paths self text language)
      as [[e He]|(reply & d & Hr & Hd)].
    + rewrite He.
      eexists. split; [reflexivity|]. split; [reflexivity|].
      intros e' E; inversion E; reflexivity.
    + rewrite (summarize_document_success _ _ _ _ _ Hr Hd).
      eexists. split; [reflexivity|]. split; [reflexivity|].
      discriminate.
  - intros e H. unfold detect_risks_advanced.
    assert (E : detect_risks_advanced_try self text language = Raise e).
    { destruct H as [He|(reply & Hr & [Hp|(d & Hd & Hl)])].
      - apply detect_risks_advanced_failure; assumption.
      - apply detect_risks_advanced_parse_failure with reply; assumption.
      - apply detect_risks_advanced_len_failure with reply d; assumption. }
    rewrite E. reflexivity.
  - intros reply d items bad Hr Hd Hrisks Hbad.
    unfold detect_risks_advanced.
    rewrite (detect_risks_advanced_item_failure _ _ _ _ _ _ _
               Hr Hd Hrisks Hbad).
    reflexivity.
  - intros e H. unfold summarize_document.
    assert (E : summarize_document_try self text language = Raise e).
    { destruct H as [He|(reply & Hr & Hp)].
      - apply summarize_document_failure; assumption.
      - apply summarize_document_parse_failure with reply; assumption. }
    rewrite E. reflexivity.
Qed.

(** C10 at a model that fails, at a reply the interpreter cannot take
    in, and at a reply that holds no payload. *)
Lemma C10_error_key_only_on_failure_witness :
  detect_risks_advanced
    (failing (Exn (OtherError (py "ResourceExhausted"))
                (py "quota exceeded")))
    (py "text") (py "English")
  = Ok (PDict [(py "total_risks", PInt 0);
               (py "high_risk_count", PInt 0);
               (py "medium_risk_count", PInt 0);
               (py "low_risk_count", PInt 0);
               (py "risks", PList []);
               (py "language", PStr (py "English"));
               (py "error", PStr (py "quota exceeded"))])
  /\ (exists report,
        detect_risks_advanced (replying reply_long_integer) (py "text")
          (py "English") = Ok (PDict report)
        /\ dict_lookup report (py "error")
           = Some (PStr (exn_msg (int_conversion_error 4301))))
  /\ detect_risks_advanced (replying (py "no payload")) (py "text")
       (py "English")
     = Ok (PDict [(py "total_risks", PInt 0);
                  (py "high_risk_count", PInt 0);
                  (py "medium_risk_count", PInt 0);
                  (py "low_risk_count", PInt 0);
                  (py "risks", PList []);
                  (py "language", PStr (py "English"))]).
Proof.
  split; [|split].
  - destruct (C10_error_key_only_on_failure
                (failing (Exn (OtherError (py "ResourceExhausted"))
                            (py "quota exceeded")))
                (py "text") (py "English")) as (_ & _ & _ & Hfail & _).
    apply (Hfail (Exn (OtherError (py "ResourceExhausted"))
                    (py "quota exceeded"))).
    left. reflexivity.
  - destruct (C10_error_key_only_on_failure
                (replying reply_long_integer) (py "text") (py "English"))
      as (_ & _ & _ & Hfail & _).
    eexists. split.
    + apply (Hfail (int_conversion_error 4301)).
      right. exists reply_long_integer. split; [reflexivity|].
      left. vm_compute. reflexivity.
    + reflexivity.
  - apply (proj1 (proj2 (C10_error_key_only_on_failure
                           (replying (py "no payload")) (py "text")
                           (py "English")))
             (py "no payload")); reflexivity.
Defined.



